(** * The APSS tractography pipeline ([pipenode.py]), embedded in Rocq

    The pipeline is a sequence of file-mediated stages.  Each stage is
    embedded below as a function over an explicit [world] (the file
    system, the standard output and a clock), in a small monad whose
    outcomes distinguish a normal return, an uncaught Python exception
    and a [sys.exit()].

    Third-party collaborators (nibabel, dipy, the shell tools) and the
    constants of the [parameters] module are not part of [pipenode.py];
    they enter as section variables carrying the names the source uses. *)

From Stdlib Require Import ZArith QArith Qround Qabs String Ascii List DecimalString.
From stdpp Require Import gmap strings list fin_maps.

Open Scope Z_scope.

(** ** Python strings *)

Module pystr.

(** [s.rfind(c)] for a one-character needle: the highest index holding
    [c], or [-1].  [rfind_at c s i] scans [s] whose head has index [i]. *)
Fixpoint rfind_at (c : ascii) (s : string) (i : Z) : Z :=
  match s with
  | EmptyString => -1
  | String a s' =>
      let r := rfind_at c s' (i + 1) in
      if 0 <=? r then r else if Ascii.eqb a c then i else -1
  end.

Definition rfind (c : ascii) (s : string) : Z := rfind_at c s 0.

(** Slices [s[:i]] and [s[i:]] for an index [0 <= i]. *)
Fixpoint take (n : nat) (s : string) : string :=
  match n, s with
  | S n', String a s' => String a (take n' s')
  | _, _ => EmptyString
  end.

Fixpoint drop (n : nat) (s : string) : string :=
  match n, s with
  | S n', String _ s' => drop n' s'
  | _, _ => s
  end.

Fixpoint startswith (s pre : string) {struct pre} : bool :=
  match pre with
  | EmptyString => true
  | String b pre' =>
      match s with
      | EmptyString => false
      | String a s' => Ascii.eqb a b && startswith s' pre'
      end
  end.

Fixpoint endswith (s suf : string) : bool :=
  String.eqb s suf
  || match s with
     | EmptyString => false
     | String _ s' => endswith s' suf
     end.

Fixpoint mem (c : ascii) (chars : string) : bool :=
  match chars with
  | EmptyString => false
  | String a chars' => Ascii.eqb a c || mem c chars'
  end.

(** [s.lstrip(chars)], [s.rstrip(chars)] and [s.strip(chars)]: drop
    from the ends every character that occurs in [chars]. *)
Fixpoint lstrip (chars s : string) : string :=
  match s with
  | EmptyString => EmptyString
  | String a s' => if mem a chars then lstrip chars s' else s
  end.

Fixpoint rstrip (chars s : string) : string :=
  match s with
  | EmptyString => EmptyString
  | String a s' =>
      let r := rstrip chars s' in
      match r with
      | EmptyString => if mem a chars then EmptyString else String a EmptyString
      | _ => String a r
      end
  end.

Definition strip (chars s : string) : string := rstrip chars (lstrip chars s).

Fixpoint all_in (chars s : string) : bool :=
  match s with
  | EmptyString => true
  | String a s' => mem a chars && all_in chars s'
  end.

(** ["%d" % z] for an integer [z]. *)
Definition fmt_d (z : Z) : string := NilEmpty.string_of_int (Z.to_int z).

End pystr.

(** ** [os.path] on POSIX *)

Module posixpath.

(** [os.path.join(a, b)]. *)
Definition join (a b : string) : string :=
  if pystr.startswith b "/" then b
  else if String.eqb a "" || pystr.endswith a "/" then a +:+ b
  else a +:+ "/" +:+ b.

(** [os.path.split(p)]: the part up to the last separator, trailing
    separators removed unless it is the root, and the part after it. *)
Definition split (p : string) : string * string :=
  let i := Z.to_nat (pystr.rfind "/" p + 1) in
  let head := pystr.take i p in
  let tail := pystr.drop i p in
  if negb (String.eqb head "") && negb (pystr.all_in "/" head)
  then (pystr.rstrip "/" head, tail)
  else (head, tail).

Definition dirname (p : string) : string := fst (split p).

(** [os.path.splitext(p)]: split at the last dot of the last path
    component, unless that component has only dots before it. *)
Definition splitext (p : string) : string * string :=
  let sepIndex := pystr.rfind "/" p in
  let dotIndex := pystr.rfind "." p in
  if sepIndex <? dotIndex then
    let filename := pystr.drop (Z.to_nat (sepIndex + 1)) (pystr.take (Z.to_nat dotIndex) p) in
    if pystr.all_in "." filename then (p, EmptyString)
    else (pystr.take (Z.to_nat dotIndex) p, pystr.drop (Z.to_nat dotIndex) p)
  else (p, EmptyString).

(** [os.path.basename(p)]. *)
Definition basename (p : string) : string :=
  pystr.drop (Z.to_nat (pystr.rfind "/" p + 1)) p.

End posixpath.

(** ** Data *)

Definition point : Type := Q * Q * Q.

(** A streamline is an ordered sequence of 3-D points. *)
Definition streamline : Type := list point.

(** A numpy array, flattened, with its shape. *)
Record ndarray := { shape : list nat; data : list Q }.

(** A NIfTI volume: voxel data and the affine of its header. *)
Record image := { img_data : ndarray; img_affine : list Q }.

(** The trackvis header fields that [compute_tracking] sets. *)
Record trk_header :=
  { voxel_size : list Q; voxel_order : string; dim : list nat }.

(** The pickled dictionary [{'dismatrix': ..., 'nprot': ...}]. *)
Record spa_info := { dismatrix : list (list Q); nprot : nat }.

(** A record of a trackvis file: the points of a streamline, its
    scalars and its properties (both may be [None]). *)
Definition trk_record : Type := streamline * option ndarray * option ndarray.

Inductive content :=
| Nifti (img : image)
| Trk (hdr : trk_header) (streams : list trk_record)
| Dpy (tracks : list streamline)
| Spa (info : spa_info)
| Raw (text : string).

(** A file-system entry: a directory, or a regular file with its
    [ctime] and its content. *)
Inductive node :=
| Dir (ctime : Z)
| File (ctime : Z) (c : content).

(** The file system maps a path, as written, to its entry: two
    spellings of one path are two keys, and there are no links. *)
Record world :=
  { files : gmap string node; stdout : list string; clock : Z }.

Definition set_files (f : gmap string node -> gmap string node) (w : world) : world :=
  {| files := f (files w); stdout := stdout w; clock := clock w |}.

Definition tick (w : world) : world :=
  {| files := files w; stdout := stdout w; clock := clock w + 1 |}.

(** ** Outcomes of running Python code *)

Inductive exn :=
| IndexError | ValueError | TypeError | AttributeError | KeyError
| OSError | OSError_EEXIST | IOError | UnboundLocalError | ImageFileError
| DataError.

Inductive outcome (A : Type) :=
| Returned (a : A) (w : world)
| Raised (e : exn) (w : world)
| Exited (w : world).

Arguments Returned {A} a w.
Arguments Raised {A} e w.
Arguments Exited {A} w.

Definition py (A : Type) : Type := world -> outcome A.

Definition ret {A} (a : A) : py A := fun w => Returned a w.

Definition bind {A B} (c : py A) (k : A -> py B) : py B :=
  fun w =>
    match c w with
    | Returned a w' => k a w'
    | Raised e w' => Raised e w'
    | Exited w' => Exited w'
    end.

Definition raise {A} (e : exn) : py A := fun w => Raised e w.

(** [sys.exit()] *)
Definition sys_exit {A} : py A := fun w => Exited w.

(** [try: body / except: handler], the bare form, which catches every
    exception, [SystemExit] included. *)
Definition try_except {A} (body handler : py A) : py A :=
  fun w =>
    match body w with
    | Returned a w' => Returned a w'
    | Raised _ w' => handler w'
    | Exited w' => handler w'
    end.

(** [try: body / except E: handler] for one exception class. *)
Definition try_except_only {A} (E : exn -> bool) (body handler : py A) : py A :=
  fun w =>
    match body w with
    | Raised e w' => if E e then handler w' else Raised e w'
    | r => r
    end.

Declare Scope py_scope.
Delimit Scope py_scope with py.
Notation "x <- c ;; k" := (bind c (fun x => k))
  (at level 100, c at next level, right associativity) : py_scope.
Notation "c ;; k" := (bind c (fun _ => k))
  (at level 100, right associativity) : py_scope.
Open Scope py_scope.

(** [print s] *)
Definition print (s : string) : py unit :=
  fun w => Returned tt {| files := files w; stdout := stdout w ++ [s]; clock := clock w |}.

(** Reading a local variable that may not have been assigned. *)
Definition local {A} (v : option A) : py A :=
  match v with
  | Some a => ret a
  | None => raise UnboundLocalError
  end.

(** ** The operating system *)

(** [os.path.join(a, b)] where [a] may be [None]: the first argument is
    only inspected when [b] is not absolute. *)
Definition os_path_join (a : option string) (b : string) : py string :=
  if pystr.startswith b "/" then ret b
  else match a with
       | Some a => ret (posixpath.join a b)
       | None => raise AttributeError
       end.

(** Concatenation [s + d] of a string with a value that may be [None]. *)
Definition str_add (s : string) (d : option string) : py string :=
  match d with
  | Some d => ret (s +:+ d)
  | None => raise TypeError
  end.

(** The root directory is always there; it is not a key of the map. *)
Definition is_root (p : string) : bool :=
  negb (String.eqb p "") && pystr.all_in "/" p.

Definition exists_in (fs : gmap string node) (p : string) : bool :=
  is_root p
  || match fs !! p with
     | Some _ => true
     | None => false
     end.

Definition os_path_exists (p : string) : py bool :=
  fun w => Returned (exists_in (files w) p) w.

(** The directory that holds [p] is there: the current directory, the
    root, or a directory of the file system. *)
Definition parent_ok (fs : gmap string node) (p : string) : bool :=
  let d := posixpath.dirname p in
  if String.eqb d "" || pystr.all_in "/" d then true
  else match fs !! d with
       | Some (Dir _) => true
       | _ => false
       end.

(** [os.remove(p)] *)
Definition os_remove (p : string) : py unit :=
  fun w =>
    match files w !! p with
    | Some (File _ _) => Returned tt (set_files (delete p) w)
    | _ => Raised OSError w
    end.

(** [os.rename(src, dst)].  The entry moves and its [ctime] is set.  A
    directory's entries are not re-keyed: the pipeline renames the
    converter's output files. *)
Definition os_rename (src dst : string) : py unit :=
  fun w =>
    match files w !! src with
    | None => Raised OSError w
    | Some n =>
        if negb (parent_ok (files w) dst) then Raised OSError w
        else match n, files w !! dst with
             | File _ _, Some (Dir _) => Raised OSError w
             | Dir _, Some _ => Raised OSError w
             | File _ c, _ =>
                 Returned tt (tick (set_files (fun fs => <[dst := File (clock w) c]> (delete src fs)) w))
             | Dir _, None =>
                 Returned tt (tick (set_files (fun fs => <[dst := Dir (clock w)]> (delete src fs)) w))
             end
    end.

(** [os.mkdir(p)]; [OSError_EEXIST] is [OSError] with [errno.EEXIST]. *)
Definition os_mkdir (p : string) : py unit :=
  fun w =>
    if exists_in (files w) p then Raised OSError_EEXIST w
    else if parent_ok (files w) p
         then Returned tt (tick (set_files (insert p (Dir (clock w))) w))
    else Raised OSError w.

(** [os.makedirs(name)]: create the leaf and every missing intermediate
    directory; an [EEXIST] from the recursive call is swallowed.  The
    recursion is on the head of [os.path.split], which is shorter than
    [name]; [fuel] bounds it. *)
Fixpoint makedirs_go (fuel : nat) (name : string) : py unit :=
  match fuel with
  | O => raise OSError
  | S fuel' =>
      let '(head, tail) := posixpath.split name in
      let '(head, tail) :=
        if String.eqb tail "" then posixpath.split head else (head, tail) in
      fun w =>
        if negb (String.eqb head "") && negb (String.eqb tail "")
           && negb (exists_in (files w) head)
        then
          match makedirs_go fuel' head w with
          | Returned _ w' | Raised OSError_EEXIST w' =>
              if String.eqb tail "." then Returned tt w' else os_mkdir name w'
          | r => r
          end
        else os_mkdir name w
  end.

Definition os_makedirs (name : string) : py unit :=
  makedirs_go (S (String.length name)) name.

(** Opening [p] for writing and storing [c] in it. *)
Definition write_file (p : string) (c : content) : py unit :=
  fun w =>
    match files w !! p with
    | Some (Dir _) => Raised IOError w
    | _ =>
        if parent_ok (files w) p
        then Returned tt (tick (set_files (insert p (File (clock w) c)) w))
        else Raised IOError w
    end.

Definition read_file (p : string) : py content :=
  fun w =>
    match files w !! p with
    | Some (File _ c) => Returned c w
    | _ => Raised IOError w
    end.

(** [os.path.getctime(p)] *)
Definition os_path_getctime (p : string) : py Z :=
  fun w =>
    match files w !! p with
    | Some (File t _) => Returned t w
    | Some (Dir t) => Returned t w
    | None => Raised OSError w
    end.

(** [glob.glob(os.path.join(d, '*' + ext))]: the entries of directory
    [d] whose name ends with [ext] and does not start with a dot, each
    joined to [d].  The listing order is the file system's.  The
    directory name is read as it is written: this is [glob] for a
    name [d] without the pattern characters [*], [?] and [[]. *)
Definition glob_match (d ext p : string) : bool :=
  let pre := posixpath.join d "" in
  pystr.startswith p pre
  && (let name := pystr.drop (String.length pre) p in
      negb (String.eqb name "") && negb (pystr.mem "/" name)
      && negb (pystr.startswith name ".") && pystr.endswith name ext).

Definition glob_ext (d ext : string) : py (list string) :=
  fun w => Returned (filter (fun p => glob_match d ext p = true) (map fst (map_to_list (files w)))) w.

(** ** nibabel *)

(** [nib.load(p)] *)
Definition nib_load (p : string) : py image :=
  c <- read_file p ;;
  match c with
  | Nifti img => ret img
  | _ => raise ImageFileError
  end.

(** [nib.save(img, p)] *)
Definition nib_save (img : image) (p : string) : py unit :=
  write_file p (Nifti img).

(** [nib.trackvis.read(p, points_space='voxel')]: the streamlines and
    the header. *)
Definition trackvis_read (p : string) : py (list trk_record * trk_header) :=
  c <- read_file p ;;
  match c with
  | Trk hdr streams => ret (streams, hdr)
  | _ => raise DataError
  end.

(** [nib.trackvis.write(p, streams, hdr, points_space='voxel')] *)
Definition trackvis_write (p : string) (streams : list trk_record) (hdr : trk_header) : py unit :=
  write_file p (Trk hdr streams).

(** [p] can be opened for writing: it is not a directory and the
    directory that holds it is there. *)
Definition writable (fs : gmap string node) (p : string) : bool :=
  match fs !! p with
  | Some (Dir _) => false
  | _ => parent_ok fs p
  end.

(** What a reader finds at [p]: the streamlines of a trackvis file, the
    tracks of a dipy container, the record of a [.spa] file. *)
Definition persisted_trk (w : world) (p : string) : option (list streamline) :=
  match files w !! p with
  | Some (File _ (Trk _ streams)) => Some (map (fun r : trk_record => fst (fst r)) streams)
  | _ => None
  end.

Definition persisted_dpy (w : world) (p : string) : option (list streamline) :=
  match files w !! p with
  | Some (File _ (Dpy tracks)) => Some tracks
  | _ => None
  end.

Definition persisted_spa (w : world) (p : string) : option spa_info :=
  match files w !! p with
  | Some (File _ (Spa info)) => Some info
  | _ => None
  end.

(** From [fs] to [fs'] every entry is as it was, or is a directory
    created where there was nothing. *)
Definition only_dirs_added (fs fs' : gmap string node) : Prop :=
  forall p, fs' !! p = fs !! p \/ (fs !! p = None /\ exists t, fs' !! p = Some (Dir t)).

Definition node_ctime (n : node) : Z :=
  match n with
  | Dir t => t
  | File t _ => t
  end.

(** ** Python built-ins used by the stages *)

Fixpoint map_py {A B} (f : A -> py B) (l : list A) : py (list B) :=
  match l with
  | [] => ret []
  | x :: l' => y <- f x ;; ys <- map_py f l' ;; ret (y :: ys)
  end.

(** [min(l, key=...)] over elements paired with their keys: the first
    element whose key is least; [ValueError] on an empty sequence. *)
Fixpoint min_from {A} (best : A) (kbest : Z) (l : list (A * Z)) : A :=
  match l with
  | [] => best
  | (x, k) :: l' => if k <? kbest then min_from x k l' else min_from best kbest l'
  end.

Definition py_min_key {A} (key : A -> py Z) (l : list A) : py A :=
  ks <- map_py (fun x => k <- key x ;; ret (x, k)) l ;;
  match ks with
  | [] => raise ValueError
  | (x, k) :: ks' => ret (min_from x k ks')
  end.

Definition is_IndexError (e : exn) : bool :=
  match e with IndexError => true | _ => false end.

(** [if os.path.exists(p): os.remove(p)] *)
Definition remove_if_exists (p : string) : py unit :=
  e <- os_path_exists p ;; if e then os_remove p else ret tt.

(** [if os.path.exists(a): os.rename(a, b)] *)
Definition rename_if_exists (a b : string) : py unit :=
  e <- os_path_exists a ;; if e then os_rename a b else ret tt.

(** [seed/10**6 if seed>10**5 else seed/10**3] and
    ['K' if seed < 1000000 else 'M'], as both [compute_tracking] and
    [tractome_preprocessing] write them. *)
Definition seed_number (seed : Z) : Z :=
  if 10 ^ 5 <? seed then seed / 10 ^ 6 else seed / 10 ^ 3.

Definition seed_unit (seed : Z) : string :=
  if seed <? 1000000 then "K" else "M".

(** [qlt a b] is the comparison [a < b] on rationals. *)
Definition qlt (a b : Q) : bool := negb (Qle_bool b a).

(** ** The stages of [pipenode.py] *)

Section Stages.

(** Constants of the [parameters] module. *)
Variable par_ecc_suffix par_iso_suffix par_bet_suffix : string.
Variable par_ecc_ref : Z.
Variable par_iso_voxel_size : list Q.
Variable par_fa_suffix par_evecs_suffix : string.
Variable par_eudx_seeds : Z.
Variable par_eudx_threshold : Q.
Variable par_trk_min par_trk_max : Q.
Variable par_trk_suffix par_dipy_suffix : string.
Variable par_prototype_distance par_prototype_policy : string.
Variable par_prototype_num : nat.

(** The effect on the world of a shell command run through [Popen]. *)
Variable shell : string -> world -> world.

(** nibabel: the voxel sizes recorded in an image's header. *)
Variable get_zooms : image -> list Q.

(** dipy: [resample(data, affine, zooms, new_zooms)], which may raise. *)
Variable resample : ndarray -> list Q -> list Q -> list Q -> option (ndarray * list Q).

(** dipy: the orientation sphere, the quantisation of eigenvectors and
    the tracker.  [EuDX ...] is an iterable object; its [k]-th
    traversal yields the sequence [EuDX ... k]. *)
Variable get_sphere : string -> list point.
Variable quantize_evecs : ndarray -> list point -> ndarray.
Variable EuDX : ndarray -> ndarray -> Z -> list point -> Q -> nat -> list streamline.

(** dipy: the arc length of a streamline, [dipy.tracking.metrics.length]. *)
Variable length : streamline -> Q.

(** dipy: the distance that [bundles_distances_mam] computes for a pair
    of streamlines. *)
Variable bundles_distances_mam : streamline -> streamline -> Q.

(** The selection policies of [dissimilarity_common], by policy name:
    the rule that names, among the streamlines not yet chosen, the one
    to take next, given those chosen so far.  The answer is an index
    into the remaining streamlines, read modulo their number. *)
Variable next_prototype : string -> list streamline -> list streamline -> nat.

(** [pipe(cmd, print_sto=False, print_ste=False)]: run the command and
    read its output without printing it. *)
Definition pipe (cmd : string) : py unit :=
  fun w => Returned tt (shell cmd w).

(** *** [dicom_to_nifti] *)

(** Lines 59-65: remove the outputs of an earlier run. *)
Definition dicom_preclean (src_dir out_dir : option string) (subj_name tag : string) : py unit :=
  match src_dir, out_dir with
  | Some _, Some out_dir =>
      remove_if_exists (posixpath.join out_dir (subj_name +:+ "_" +:+ tag +:+ ".nii")) ;;
      remove_if_exists (posixpath.join out_dir (subj_name +:+ ".bval")) ;;
      remove_if_exists (posixpath.join out_dir (subj_name +:+ ".bvec"))
  | _, _ => ret tt
  end.

(** Lines 67-72: stop unless the source directory holds a [.dcm] file. *)
Definition dicom_require_dcm (src_dir : option string) : py unit :=
  try_except_only is_IndexError
    (_ <- os_path_join src_dir "*.dcm" ;;
     l <- glob_ext (default "" src_dir) ".dcm" ;;
     match l with
     | [] => raise IndexError
     | _ :: _ => ret tt
     end)
    (print "FAIL: dcm2nii - FILE: *.dcm not found" ;; sys_exit).

(** Lines 74-75: the converter runs on the world as the steps before
    it left it. *)
Definition dicom_run_converter (src_dir out_dir : option string) (opt : string) : py unit :=
  cmd <- str_add ("dcm2nii " +:+ opt +:+ " ") out_dir ;;
  cmd <- str_add (cmd +:+ " ") src_dir ;;
  pipe cmd.

(** Lines 76-77: the [.nii] files of the output directory and the one
    the stage takes for the converter's new file. *)
Definition dicom_new_file (out_dir : string) : py string :=
  all_file <- glob_ext out_dir ".nii" ;;
  py_min_key os_path_getctime all_file.

(** Lines 76-101: find the converter's file and give the outputs the
    subject's names. *)
Definition dicom_collect (out_dir : option string) (subj_name tag : string) : py unit :=
  _ <- os_path_join out_dir "*.nii" ;;
  let out_dir := default "" out_dir in
  new_file <- dicom_new_file out_dir ;;
  let del_file := posixpath.basename new_file in
  let del_file := pystr.strip "co, o, .nii, .bval, .bvec" del_file in
  (if String.eqb tag "mri" then
     rename_if_exists (posixpath.join out_dir ("co" +:+ del_file +:+ ".nii"))
                      (posixpath.join out_dir (subj_name +:+ "_" +:+ tag +:+ ".nii")) ;;
     remove_if_exists (posixpath.join out_dir ("o" +:+ del_file +:+ ".nii")) ;;
     remove_if_exists (posixpath.join out_dir (del_file +:+ ".nii"))
   else ret tt) ;;
  (if String.eqb tag "dmri" then
     rename_if_exists (posixpath.join out_dir (del_file +:+ ".nii"))
                      (posixpath.join out_dir (subj_name +:+ "_" +:+ tag +:+ ".nii")) ;;
     rename_if_exists (posixpath.join out_dir (del_file +:+ ".bval"))
                      (posixpath.join out_dir (subj_name +:+ ".bval")) ;;
     rename_if_exists (posixpath.join out_dir (del_file +:+ ".bvec"))
                      (posixpath.join out_dir (subj_name +:+ ".bvec"))
   else ret tt).

Definition dicom_to_nifti (src_dir out_dir : option string) (subj_name tag opt : string) : py unit :=
  dicom_preclean src_dir out_dir subj_name tag ;;
  dicom_require_dcm src_dir ;;
  dicom_run_converter src_dir out_dir opt ;;
  dicom_collect out_dir subj_name tag.

(** *** [eddy_current_correction] *)

Definition eddy_current_correction (src_ecc_dir out_ecc_dir : option string) (subj_name : string) : py unit :=
  let handler (src_ecc_file : option string) : py unit :=
    f <- local src_ecc_file ;;
    print ("FAIL: eddy_correct - File: " +:+ f) ;;
    sys_exit in
  bound <- try_except
             (f <- os_path_join src_ecc_dir (subj_name +:+ par_bet_suffix) ;; ret (Some f))
             (handler None ;; ret None) ;;
  match bound with
  | None => ret tt
  | Some src_ecc_file =>
      try_except
        (out_ecc_file <- os_path_join out_ecc_dir (subj_name +:+ par_ecc_suffix) ;;
         let cmd := "eddy_correct " +:+ src_ecc_file +:+ " " +:+ out_ecc_file
                    +:+ " " +:+ pystr.fmt_d par_ecc_ref in
         pipe cmd)
        (handler (Some src_ecc_file))
  end.

(** *** [rescaling_isotropic_voxel] *)

(** The handler ends with the statement [exit]: an expression that
    names the built-in and does not call it. *)
Definition rescaling_isotropic_voxel (src_iso_dir out_iso_dir : option string) (subj_name : string) : py unit :=
  let handler (src_iso_file : option string) : py unit :=
    f <- local src_iso_file ;;
    print ("FAIL: isotropic rescaling - File: " +:+ f) ;;
    ret tt in
  bound <- try_except
             (f <- os_path_join src_iso_dir (subj_name +:+ par_ecc_suffix) ;; ret (Some f))
             (handler None ;; ret None) ;;
  match bound with
  | None => ret tt
  | Some src_iso_file =>
      try_except
        (out_iso_file <- os_path_join out_iso_dir (subj_name +:+ par_iso_suffix) ;;
         src_img <- nib_load src_iso_file ;;
         let src_data := img_data src_img in
         let src_affine := img_affine src_img in
         let src_iso_size := firstn 3 (get_zooms src_img) in
         let out_iso_size := par_iso_voxel_size in
         match resample src_data src_affine src_iso_size out_iso_size with
         | None => raise ValueError
         | Some (data, affine) =>
             let data_img := {| img_data := data; img_affine := affine |} in
             nib_save data_img out_iso_file
         end)
        (handler (Some src_iso_file))
  end.

(** *** [compute_tracking] *)

(** The condition of the generator expression of lines 241-242. *)
Definition length_filter (sl : streamline) : bool :=
  qlt par_trk_min (length sl) && qlt (length sl) par_trk_max.

(** ["_%d%s" % (...)], the seed count abbreviated for file names. *)
Definition seed_tag (seed : Z) : string :=
  "_" +:+ pystr.fmt_d (seed_number seed) +:+ seed_unit seed.

Definition tracking_trk_basename (subj_name : string) : string :=
  subj_name +:+ seed_tag par_eudx_seeds +:+ par_trk_suffix.

Definition tracking_dipy_basename (subj_name : string) : string :=
  subj_name +:+ seed_tag par_eudx_seeds +:+ par_dipy_suffix.

Definition compute_tracking (src_dti_dir out_trk_dir subj_name : string) : py unit :=
  let src_fa_file := posixpath.join src_dti_dir (subj_name +:+ par_fa_suffix) in
  fa_img <- nib_load src_fa_file ;;
  let FA := img_data fa_img in
  let src_evecs_file := posixpath.join src_dti_dir (subj_name +:+ par_evecs_suffix) in
  evecs_img <- nib_load src_evecs_file ;;
  let evecs := img_data evecs_img in
  let sphere := get_sphere "symmetric724" in
  let peak_indices := quantize_evecs evecs sphere in
  let streamlines := EuDX FA peak_indices par_eudx_seeds sphere par_eudx_threshold in
  let voxel_size := firstn 3 (get_zooms fa_img) in
  let dims := firstn 3 (shape FA) in
  let hdr := {| voxel_size := voxel_size; voxel_order := "LAS"; dim := dims |} in
  (* the generator [strm] is consumed by the writer: first traversal *)
  let strm := map (fun sl => (sl, None, None))
                  (List.filter length_filter (streamlines 0%nat)) in
  let out_trk_file := posixpath.join out_trk_dir (tracking_trk_basename subj_name) in
  trackvis_write out_trk_file strm hdr ;;
  (* [tracks = [track for track in streamlines]]: second traversal *)
  let tracks := streamlines 1%nat in
  let out_dipy_file := posixpath.join out_trk_dir (tracking_dipy_basename subj_name) in
  write_file out_dipy_file (Dpy tracks).

(** *** [tractome_preprocessing] *)

(** Modelled from the spec: the prototype selection inside
    [compute_dissimilarity] of the module [dissimilarity_common], which
    [pipenode.py] imports and which is not among the sources.  The
    spec: "select a subset of prototype streamlines from the full set
    according to a configured selection policy and a configured
    prototype count".  The policy picks one streamline after the other
    among those not yet chosen, until the count is reached or none is
    left. *)
Fixpoint select_prototypes_from (policy : string) (n : nat)
    (chosen remaining : list streamline) : list streamline :=
  match n, remaining with
  | S n', s0 :: _ =>
      let i := (next_prototype policy chosen remaining mod List.length remaining)%nat in
      let p := nth i remaining s0 in
      p :: select_prototypes_from policy n' (chosen ++ [p]) (delete i remaining)
  | _, _ => []
  end.

(** Modelled from the spec: the selection starts with nothing chosen
    and the full set to choose from. *)
Definition select_prototypes (policy : string) (n : nat) (streamlines : list streamline)
    : list streamline :=
  select_prototypes_from policy n [] streamlines.

(** Modelled from the spec: [compute_dissimilarity] of the module
    [dissimilarity_common], absent from the sources.  The spec:
    "compute, for every streamline in the full set, its distance to
    every prototype", as a dense matrix with one row per streamline
    and one column per prototype. *)
Definition compute_dissimilarity (streamlines : list streamline)
    (distance : streamline -> streamline -> Q) (policy : string) (num_prototypes : nat)
    : list (list Q) :=
  let prototypes := select_prototypes policy num_prototypes streamlines in
  map (fun s => map (distance s) prototypes) streamlines.

(** ["%s_%d%s%s" % (subj_name, ..., ..., par_trk_suffix)] *)
Definition tractome_trk_basename (subj_name : string) : string :=
  subj_name +:+ "_" +:+ pystr.fmt_d (seed_number par_eudx_seeds)
    +:+ seed_unit par_eudx_seeds +:+ par_trk_suffix.

Definition tractome_spa_basename (subj_name : string) : string :=
  fst (posixpath.splitext (tractome_trk_basename subj_name)) +:+ ".spa".

Definition tractome_out_spa_dir (src_trk_dir : string) : string :=
  posixpath.join src_trk_dir ".temp".

Definition tractome_out_spa_file (src_trk_dir subj_name : string) : string :=
  posixpath.join (tractome_out_spa_dir src_trk_dir) (tractome_spa_basename subj_name).

Definition tractome_preprocessing (src_trk_dir subj_name : string) : py unit :=
  let par2fun : gmap string (streamline -> streamline -> Q) :=
    {[ par_prototype_distance := bundles_distances_mam ]} in
  prototype_distance <- match par2fun !! par_prototype_distance with
                        | Some f => ret f
                        | None => raise KeyError
                        end ;;
  let trk_basename := tractome_trk_basename subj_name in
  let src_trk_file := posixpath.join src_trk_dir trk_basename in
  let out_spa_dir := tractome_out_spa_dir src_trk_dir in
  e <- os_path_exists out_spa_dir ;;
  (if e then ret tt else os_makedirs out_spa_dir) ;;
  let out_spa_file := tractome_out_spa_file src_trk_dir subj_name in
  sh <- trackvis_read src_trk_file ;;
  let streamlines := map (fun s : trk_record => fst (fst s)) (fst sh) in
  let dissimilarity_matrix :=
    compute_dissimilarity streamlines prototype_distance
                          par_prototype_policy par_prototype_num in
  let info := {| dismatrix := dissimilarity_matrix; nprot := par_prototype_num |} in
  write_file out_spa_file (Spa info).

End Stages.

(** ** A concrete configuration for the examples *)

Module demo.

(** A stand-in for dipy's arc length: the sum of the Euclidean
    distances of consecutive points, each square root rounded down to
    six decimals. *)
Definition qsqrt (q : Q) : Q :=
  Z.sqrt (Qfloor (q * inject_Z (10 ^ 12))) # 1000000.

Definition dist (a b : point) : Q :=
  let '(x1, y1, z1) := a in
  let '(x2, y2, z2) := b in
  qsqrt ((x2 - x1) * (x2 - x1) + (y2 - y1) * (y2 - y1) + (z2 - z1) * (z2 - z1))%Q.

Fixpoint length (sl : streamline) : Q :=
  match sl with
  | a :: (b :: _) as rest => (dist a b + length rest)%Q
  | _ => 0%Q
  end.

Definition origin : point := (0%Q, 0%Q, 0%Q).

(** A streamline of length 5 and one of length 1. *)
Definition sl_long : streamline := [origin; (3%Q, 4%Q, 0%Q)].
Definition sl_short : streamline := [origin; (1%Q, 0%Q, 0%Q)].

(** A tracker that yields the same two streamlines at every traversal. *)
Definition EuDX (FA ind : ndarray) (seeds : Z) (verts : list point) (a_low : Q)
    (k : nat) : list streamline :=
  [sl_long; sl_short].

Definition get_sphere (name : string) : list point := [(1%Q, 0%Q, 0%Q)].
Definition quantize_evecs (evecs : ndarray) (verts : list point) : ndarray :=
  {| shape := firstn 3 (shape evecs); data := [] |}.
Definition get_zooms (img : image) : list Q := [2%Q; 2%Q; 2%Q].
Definition resample (d : ndarray) (aff zooms new_zooms : list Q) : option (ndarray * list Q) :=
  Some (d, aff).

(** The absolute difference of the two lengths, as a distance. *)
Definition distance (a b : streamline) : Q := Qabs (length a - length b).

(** A policy that always takes the first streamline left. *)
Definition next_prototype (policy : string) (chosen remaining : list streamline) : nat := 0.

(** A shell whose commands leave the world as it is. *)
Definition shell (cmd : string) (w : world) : world := w.

Definition vol : image :=
  {| img_data := {| shape := [1; 1; 1]%nat; data := [1%Q] |}; img_affine := [] |}.

Definition hdr : trk_header :=
  {| voxel_size := [2%Q; 2%Q; 2%Q]; voxel_order := "LAS"; dim := [1; 1; 1]%nat |}.

Definition mk_world (fs : gmap string node) : world :=
  {| files := fs; stdout := []; clock := 1000 |}.

(** A converter that writes [scan.nii], [scan.bval] and [scan.bvec]
    into the directory [out]. *)
Definition converter (cmd : string) (w : world) : world :=
  tick (set_files
          (fun fs => <["out/scan.bvec" := File (clock w) (Raw "bvec")]>
                     (<["out/scan.bval" := File (clock w) (Raw "bval")]>
                     (<["out/scan.nii" := File (clock w) (Nifti vol)]> fs))) w).

(** An output directory that holds outputs of an earlier run and a
    file of another kind. *)
Definition w_dicom : world :=
  mk_world (list_to_map
    [ ("in", Dir 1); ("in/1.dcm", File 2 (Raw "dicom"));
      ("out", Dir 3);
      ("out/s_dmri.nii", File 50 (Nifti vol));
      ("out/s.bval", File 51 (Raw "0 1000"));
      ("out/notes.txt", File 52 (Raw "keep")) ]).

(** An output directory where the converter has just written [b.nii]
    next to an older [a.nii]. *)
Definition w_nii : world :=
  mk_world (list_to_map
    [ ("out", Dir 3);
      ("out/a.nii", File 100 (Nifti vol));
      ("out/b.nii", File 200 (Nifti vol)) ]).

(** An output directory that holds the structural volume of an
    earlier conversion of the same subject. *)
Definition w_second_run : world :=
  mk_world (list_to_map
    [ ("in", Dir 1); ("in/1.dcm", File 2 (Raw "dicom"));
      ("out", Dir 3);
      ("out/s_mri.nii", File 50 (Nifti vol)) ]).

(** A subject directory with the reconstruction outputs. *)
Definition w_dti : world :=
  mk_world (list_to_map
    [ ("dti", Dir 1);
      ("dti/s_fa.nii", File 2 (Nifti vol));
      ("dti/s_evecs.nii", File 3 (Nifti vol)) ]).

(** A tracking directory without any streamline file. *)
Definition w_empty_trk : world := mk_world (list_to_map [ ("trk", Dir 1) ]).

(** A tracking directory with a streamline file of two streamlines. *)
Definition w_trk : world :=
  mk_world (list_to_map
    [ ("trk", Dir 1);
      ("trk/s_1M.trk", File 2 (Trk hdr [(sl_long, None, None); (sl_short, None, None)])) ]).


End demo.

(** ** The remaining functions of [pipenode.py] *)

(** A float array whose entries may be NaN ([None]). *)
Record nanarray := { nan_shape : list nat; nan_data : list (option Q) }.

(** The fitted tensors: eigenvalues and eigenvectors per voxel. *)
Record tensor_fit := { evals : ndarray; evecs : ndarray }.

(** [a[np.isnan(a)] = 0] *)
Definition nan_to_zero (a : nanarray) : ndarray :=
  {| shape := nan_shape a; data := map (from_option id 0%Q) (nan_data a) |}.

(** [255 * a] *)
Definition scale255 (a : ndarray) : ndarray :=
  {| shape := shape a; data := map (Qmult 255) (data a) |}.

(** The world after one more line has been printed. *)
Definition with_line (w : world) (s : string) : world :=
  {| files := files w; stdout := stdout w ++ [s]; clock := clock w |}.

(** [l[0]] *)
Definition py_index0 {A} (l : list A) : py A :=
  match l with
  | [] => raise IndexError
  | x :: _ => ret x
  end.

(** A path names a directory when, its final separators set aside, it
    is the key of one. *)
Definition isdir_in (fs : gmap string node) (p : string) : bool :=
  is_root p
  || match fs !! pystr.rstrip "/" p with
     | Some (Dir _) => true
     | _ => false
     end.

(** [os.path.isdir(p)]; [None] is not a path. *)
Definition os_path_isdir (p : option string) : py bool :=
  match p with
  | None => raise TypeError
  | Some p => fun w => Returned (isdir_in (files w) p) w
  end.

(** The names of the entries of directory [d], in the order of the
    file system. *)
Definition listdir_names (fs : gmap string node) (d : string) : list string :=
  let pre := posixpath.join d "" in
  omap (fun p : string =>
          let name := pystr.drop (String.length pre) p in
          if pystr.startswith p pre && negb (String.eqb name "")
             && negb (pystr.mem "/" name)
          then Some name else None)
       (map fst (map_to_list fs)).

(** [os.listdir(d)] *)
Definition os_listdir (d : string) : py (list string) :=
  fun w =>
    if isdir_in (files w) d then Returned (listdir_names (files w) d) w
    else Raised OSError w.

(** From [fs] to [fs'] every entry is as it was, or is a directory
    created where there was nothing, and that directory is [name] or
    one that [name] lies under. *)
Definition created_under (name : string) (fs fs' : gmap string node) : Prop :=
  forall p,
    fs' !! p = fs !! p
    \/ (fs !! p = None
        /\ (exists t, fs' !! p = Some (Dir t))
        /\ (p = name \/ exists rest, name = p +:+ "/" +:+ rest)).

(** An outcome that is a return or an exception, reached by creating
    [name] or directories above it, and printing nothing. *)
Definition creates_under {A} (name : string) (w : world) (r : outcome A) : Prop :=
  match r with
  | Returned _ w' | Raised _ w' =>
      created_under name (files w) (files w') /\ stdout w' = stdout w
  | Exited _ => False
  end.

(** [glob.has_magic(s)]: the characters that [glob] reads as a
    pattern.  [glob_ext] stands for [glob.glob] on a directory name
    without them. *)
Definition glob_has_magic (s : string) : bool :=
  pystr.mem "*" s || pystr.mem "?" s || pystr.mem "[" s.

Section MoreStages.

(** Constants of the [parameters] module. *)
Variable par_bet_suffix par_bet_options : string.
Variable par_iso_suffix par_flirt_suffix par_aff_suffix : string.
Variable par_flirt_dof : Z.
Variable par_atlas_file par_atlas_suffix : string.
Variable par_atlas_dof : Z.
Variable par_evecs_suffix par_fa_suffix par_cfa_suffix : string.

(** The effect of a shell command on the world, and the text that
    printing its captured output and error lines gives. *)
Variable shell : string -> world -> world.
Variable shell_output : string -> world -> string * string.

(** [os.environ] and [os.walk(top, followlinks=True)]: the triples
    (directory, subdirectory names, file names) in walking order. *)
Variable environ : gmap string string.
Variable os_walk : world -> string -> list (string * list string * list string).

(** numpy: the array a text holds ([np.loadtxt]), the transpose, and
    the casts to [float32] and [uint8]. *)
Variable parse_txt : string -> option ndarray.
Variable transpose : ndarray -> ndarray.
Variable astype_float32 : ndarray -> ndarray.
Variable astype_uint8 : ndarray -> ndarray.

(** dipy: the gradient table, the tensor model and its fit, the
    fractional anisotropy (NaN where it is undefined) and its colour
    map.  The first two may raise. *)
Variable gtab : Type.
Variable gradient_table : ndarray -> ndarray -> option gtab.
Variable tensor_model_fit : gtab -> ndarray -> option tensor_fit.
Variable fractional_anisotropy : ndarray -> nanarray.
Variable color_fa : ndarray -> ndarray -> ndarray.

(** [pipe(cmd, print_sto, print_ste)], lines 31-40: run the command,
    read its output and its errors, print each if asked to. *)
Definition pipe_flags (cmd : string) (print_sto print_ste : bool) : py unit :=
  fun w =>
    let '(sto, ste) := shell_output cmd w in
    ((if print_sto then print sto else ret tt) ;;
     (if print_ste then print ste else ret tt)) (shell cmd w).

(** [dcm2nii], [eddy_correct] and [bet], lines 42-54. *)
Definition dcm2nii (dname outdir filt options : string) : py unit :=
  let cmd := "dcm2nii " +:+ options +:+ " " +:+ outdir +:+ " " +:+ dname in
  pipe_flags cmd false false.

Definition eddy_correct (in_nii out_nii : string) (ref : Z) : py unit :=
  let cmd := "eddy_correct " +:+ in_nii +:+ " " +:+ out_nii +:+ " " +:+ pystr.fmt_d ref in
  pipe_flags cmd false false.

Definition bet (in_nii out_nii options : string) : py unit :=
  let cmd := "bet " +:+ in_nii +:+ " " +:+ out_nii +:+ options in
  pipe_flags cmd false false.

(** *** [brain_extraction] *)

(** The handler reads [src_bet_file], which is assigned only after the
    input volume has been found. *)
Definition brain_extraction (src_bet out_dir : option string) (subj_name tag : string) : py unit :=
  let handler (src_bet_file : option string) : py unit :=
    f <- local src_bet_file ;;
    print ("FAIL: bet - File: " +:+ f) ;;
    sys_exit in
  bound <- try_except
             (out_bet_file <- os_path_join out_dir (subj_name +:+ par_bet_suffix) ;;
              d <- os_path_isdir src_bet ;;
              bet_file <- (if d then
                             names <- os_listdir (default "" src_bet) ;;
                             f <- py_index0
                                    (List.filter
                                       (fun f => pystr.endswith f (subj_name +:+ "_" +:+ tag +:+ ".nii"))
                                       names) ;;
                             ret (Some f)
                           else ret None) ;;
              bet_file <- local bet_file ;;
              src_bet_file <- os_path_join src_bet bet_file ;;
              ret (Some (src_bet_file, out_bet_file)))
             (handler None ;; ret None) ;;
  match bound with
  | None => ret tt
  | Some (src_bet_file, out_bet_file) =>
      try_except
        (let cmd := "bet " +:+ src_bet_file +:+ " " +:+ out_bet_file +:+ par_bet_options in
         pipe shell cmd)
        (handler (Some src_bet_file))
  end.

(** *** [flirt_registration] and [atlas_registration] *)

Definition flirt_registration
    (src_flirt_dir ref_flirt_dir out_flirt_dir aff_flirt_dir subj_name : string) : py unit :=
  let src_flirt_file := posixpath.join src_flirt_dir (subj_name +:+ par_bet_suffix) in
  let ref_flirt_file := posixpath.join ref_flirt_dir (subj_name +:+ par_iso_suffix) in
  let out_flirt_file := posixpath.join out_flirt_dir (subj_name +:+ par_flirt_suffix) in
  let aff_flirt_file := posixpath.join aff_flirt_dir (subj_name +:+ par_aff_suffix) in
  pipe_flags ("flirt -in " +:+ src_flirt_file +:+ " -ref " +:+ ref_flirt_file
              +:+ " -out " +:+ out_flirt_file +:+ " -omat " +:+ aff_flirt_file
              +:+ " -dof " +:+ pystr.fmt_d par_flirt_dof) true true.

(** The files [os.walk] meets whose name ends with [par_atlas_file],
    each joined to its directory. *)
Definition atlas_candidates (w : world) (fsl_dir : string) : list string :=
  flat_map (fun t : string * list string * list string =>
              let '(dirpath, _, fnames) := t in
              map (posixpath.join dirpath)
                  (List.filter (fun f => pystr.endswith f par_atlas_file) fnames))
           (os_walk w fsl_dir).

Definition atlas_command (fsl_atlas_file ref_flirt_file out_flirt_file aff_flirt_file : string) : string :=
  "flirt -in " +:+ fsl_atlas_file +:+ " -ref " +:+ ref_flirt_file
  +:+ " -out " +:+ out_flirt_file +:+ " -omat " +:+ aff_flirt_file
  +:+ " -dof " +:+ pystr.fmt_d par_atlas_dof
  +:+ " -bins 256 -cost corratio -searchrx -90 90 -searchry -90 90 -searchrz -90 90 -dof 12  -interp trilinear".

Definition atlas_registration
    (ref_flirt_dir out_flirt_dir aff_flirt_dir subj_name : string) : py unit :=
  fsl_atlas_file <-
    try_except_only is_IndexError
      (fsl_dir <- match environ !! "FSLDIR" with
                  | Some d => ret d
                  | None => raise KeyError
                  end ;;
       found <- (fun w => Returned (atlas_candidates w fsl_dir) w) ;;
       py_index0 found)
      (print ("FAIL: atlas file not found - File: " +:+ par_atlas_file) ;; sys_exit) ;;
  let ref_flirt_file := posixpath.join ref_flirt_dir (subj_name +:+ par_iso_suffix) in
  let out_flirt_file := posixpath.join out_flirt_dir (subj_name +:+ par_atlas_suffix) in
  let aff_flirt_file := posixpath.join aff_flirt_dir (subj_name +:+ par_aff_suffix) in
  pipe_flags (atlas_command fsl_atlas_file ref_flirt_file out_flirt_file aff_flirt_file)
             true true.

(** *** [compute_reconstruction] *)

(** [np.loadtxt(p)] *)
Definition np_loadtxt (p : string) : py ndarray :=
  c <- read_file p ;;
  match c with
  | Raw text =>
      match parse_txt text with
      | Some a => ret a
      | None => raise ValueError
      end
  | _ => raise ValueError
  end.

(** [src_dmri_dir + [each for each in os.listdir(src_dmri_dir)
    if each.endswith(ext)][0]]: the directory string and the name are
    concatenated as they are. *)
Definition gradient_file (src_dmri_dir ext : string) : py string :=
  names <- os_listdir src_dmri_dir ;;
  name <- py_index0 (List.filter (fun each => pystr.endswith each ext) names) ;;
  ret (src_dmri_dir +:+ name).

Definition compute_reconstruction (src_dmri_dir subj_name : string) : py unit :=
  let src_dmri_file := posixpath.join src_dmri_dir (subj_name +:+ par_iso_suffix) in
  src_bval_file <- gradient_file src_dmri_dir ".bval" ;;
  src_bvec_file <- gradient_file src_dmri_dir ".bvec" ;;
  img <- nib_load src_dmri_file ;;
  bvals <- np_loadtxt src_bval_file ;;
  bvecs <- np_loadtxt src_bvec_file ;;
  let bvecs := transpose bvecs in
  let data := img_data img in
  let affine := img_affine img in
  gradients <- match gradient_table bvals bvecs with
               | Some g => ret g
               | None => raise ValueError
               end ;;
  tensors <- match tensor_model_fit gradients data with
             | Some t => ret t
             | None => raise ValueError
             end ;;
  let FA := nan_to_zero (fractional_anisotropy (evals tensors)) in
  let Color_FA := color_fa FA (evecs tensors) in
  let out_evecs_file := posixpath.join src_dmri_dir (subj_name +:+ par_evecs_suffix) in
  let evecs_img := {| img_data := astype_float32 (evecs tensors); img_affine := affine |} in
  nib_save evecs_img out_evecs_file ;;
  let out_fa_file := posixpath.join src_dmri_dir (subj_name +:+ par_fa_suffix) in
  let fa_img := {| img_data := astype_float32 FA; img_affine := affine |} in
  nib_save fa_img out_fa_file ;;
  let out_cfa_file := posixpath.join src_dmri_dir (subj_name +:+ par_cfa_suffix) in
  let cfa_img := {| img_data := astype_uint8 (scale255 Color_FA); img_affine := affine |} in
  nib_save cfa_img out_cfa_file.

End MoreStages.


(** ** Further examples *)

Module demo_more.

(** A structural directory with the subject's volume and another file. *)
Definition w_mri : world :=
  demo.mk_world (list_to_map
    [ ("mri", Dir 1);
      ("mri/s_mri.nii", File 2 (Nifti demo.vol));
      ("mri/readme.txt", File 3 (Raw "notes")) ]).

(** A diffusion directory with the eddy-corrected volume. *)
Definition w_ecc : world :=
  demo.mk_world (list_to_map
    [ ("dmri", Dir 1);
      ("dmri/s_ecc.nii", File 2 (Nifti demo.vol)) ]).

(** A diffusion directory holding the resampled volume and the
    gradient tables. *)
Definition w_iso : world :=
  demo.mk_world (list_to_map
    [ ("dmri", Dir 1);
      ("dmri/s_iso.nii", File 2 (Nifti demo.vol));
      ("dmri/s.bval", File 3 (Raw "0 1000"));
      ("dmri/s.bvec", File 4 (Raw "0 1 0 0 0 0")) ]).

Definition shell_output (cmd : string) (w : world) : string * string :=
  ("['done']"%string, "[]"%string).

Definition parse_txt (text : string) : option ndarray :=
  Some {| shape := [2]%nat; data := [0%Q; 1000%Q] |}.

Definition transpose (a : ndarray) : ndarray := a.
Definition astype (a : ndarray) : ndarray := a.

Definition gradient_table (bvals bvecs : ndarray) : option (ndarray * ndarray) :=
  Some (bvals, bvecs).

Definition fit : tensor_fit :=
  {| evals := {| shape := [1; 3]%nat; data := [0%Q; 0%Q; 0%Q] |};
     evecs := {| shape := [1; 3; 3]%nat; data := [] |} |}.

Definition tensor_model_fit (g : ndarray * ndarray) (data : ndarray) : option tensor_fit :=
  Some fit.

(** An FA map of two entries, the second undefined. *)
Definition fractional_anisotropy (ev : ndarray) : nanarray :=
  {| nan_shape := [2]%nat; nan_data := [Some (1 # 2); None] |}.

Definition color_fa (fa ev : ndarray) : ndarray := fa.

(** An installation tree with one atlas file. *)
Definition os_walk (w : world) (top : string) : list (string * list string * list string) :=
  [ (top, ["data"], ["README"]);
    (top +:+ "/data", [], ["MNI152_T1_2mm.nii.gz"; "other.nii.gz"]) ]%string.

Definition environ : gmap string string := {[ "FSLDIR" := "/opt/fsl" ]}%string.

(** A tracking directory where [.temp] is a regular file. *)
Definition w_temp_file : world :=
  demo.mk_world (list_to_map
    [ ("trk", Dir 1);
      ("trk/s_1M.trk",
       File 2 (Trk demo.hdr [(demo.sl_long, None, None); (demo.sl_short, None, None)]));
      ("trk/.temp", File 3 (Raw "")) ]).


Definition w_conv_mri : world :=
  demo.mk_world (list_to_map
    [ ("out", Dir 1);
      ("out/2014s002.nii", File 2 (Raw "plain"));
      ("out/o2014s002.nii", File 3 (Raw "reoriented"));
      ("out/co2014s002.nii", File 4 (Raw "cropped")) ]).

End demo_more.

(** * Properties *)

(** ** Strings and paths *)

Example ex_join : posixpath.join "out" "s_mri.nii" = "out/s_mri.nii"
  /\ posixpath.join "out/" "s.bval" = "out/s.bval"
  /\ posixpath.join "" ".temp" = ".temp"
  /\ posixpath.join "out" "/abs" = "/abs".
Proof. repeat split; reflexivity. Qed.

Example ex_split : posixpath.split "data/s/.temp" = ("data/s", ".temp")
  /\ posixpath.split "/x" = ("/", "x")
  /\ posixpath.split "x" = ("", "x")
  /\ posixpath.split "a//b" = ("a", "b").
Proof. repeat split; reflexivity. Qed.

Example ex_splitext : posixpath.splitext "s_1M.trk" = ("s_1M", ".trk")
  /\ posixpath.splitext "a.b/c" = ("a.b/c", "")
  /\ posixpath.splitext ".trk" = (".trk", "")
  /\ posixpath.splitext "x.tar.gz" = ("x.tar", ".gz").
Proof. repeat split; reflexivity. Qed.

Example ex_strip : pystr.strip "co, o, .nii, .bval, .bvec" "co2014x.nii" = "2014x".
Proof. reflexivity. Qed.

Example ex_endswith : pystr.endswith "out/" "/" = true
  /\ pystr.endswith "out/a.nii" ".nii" = true
  /\ pystr.endswith "out/a.nii.gz" ".nii" = false.
Proof. repeat split; reflexivity. Qed.

Example ex_seed_names : seed_tag 1000000 = "_1M" /\ seed_tag 50000 = "_50K"
  /\ seed_tag 3000000 = "_3M" /\ seed_tag 500000 = "_0K".
Proof. repeat split; reflexivity. Qed.

Lemma mem_app c s1 s2 :
  pystr.mem c (s1 +:+ s2) = pystr.mem c s1 || pystr.mem c s2.
Proof.
  induction s1 as [|a s1 IH]; simpl; [reflexivity|].
  rewrite IH. apply orb_assoc.
Qed.

Lemma all_in_app chars s1 s2 :
  pystr.all_in chars (s1 +:+ s2) = pystr.all_in chars s1 && pystr.all_in chars s2.
Proof.
  induction s1 as [|a s1 IH]; simpl; [reflexivity|].
  rewrite IH. apply andb_assoc.
Qed.

Lemma take_app_length s1 s2 : pystr.take (String.length s1) (s1 +:+ s2) = s1.
Proof. induction s1 as [|a s1 IH]; simpl; [by destruct s2 | by rewrite IH]. Qed.

Lemma drop_app_length s1 s2 : pystr.drop (String.length s1) (s1 +:+ s2) = s2.
Proof. induction s1 as [|a s1 IH]; simpl; [by destruct s2 | done]. Qed.

Lemma drop_app_le n s1 s2 :
  (n <= String.length s1)%nat -> pystr.drop n (s1 +:+ s2) = pystr.drop n s1 +:+ s2.
Proof.
  revert n. induction s1 as [|a s1 IH]; intros [|n] Hn; simpl in *; try done; try lia.
  apply IH. lia.
Qed.

Lemma app_cons a (s1 s2 : string) : String a s1 +:+ s2 = String a (s1 +:+ s2).
Proof. reflexivity. Qed.

Lemma app_assoc_str (s1 s2 s3 : string) : (s1 +:+ s2) +:+ s3 = s1 +:+ (s2 +:+ s3).
Proof.
  induction s1 as [|a s1 IH]; [done|].
  by rewrite !app_cons, IH.
Qed.

Lemma length_app_str (s1 s2 : string) :
  String.length (s1 +:+ s2) = (String.length s1 + String.length s2)%nat.
Proof.
  induction s1 as [|a s1 IH]; [done|].
  rewrite app_cons. simpl. by rewrite IH.
Qed.

(** [rfind] answers [-1] or an index of the string. *)
Lemma rfind_at_range c s i :
  0 <= i ->
  pystr.rfind_at c s i = -1
  \/ (i <= pystr.rfind_at c s i < i + Z.of_nat (String.length s)).
Proof.
  revert i. induction s as [|a s IH]; intros i Hi; simpl; [by left|].
  destruct (IH (i + 1) ltac:(lia)) as [-> | Hr].
  - simpl. destruct (Ascii.eqb a c); [right; lia | by left].
  - destruct (Z.leb_spec 0 (pystr.rfind_at c s (i + 1))); [right; lia | lia].
Qed.

Lemma rfind_at_absent c s i : pystr.mem c s = false -> pystr.rfind_at c s i = -1.
Proof.
  revert i. induction s as [|a s IH]; intros i H; simpl in *; [done|].
  apply orb_false_elim in H as [Ha Hs]. rewrite (IH _ Hs). simpl. by rewrite Ha.
Qed.

Lemma rfind_at_cons c a s i :
  pystr.rfind_at c (String a s) i =
    let r := pystr.rfind_at c s (i + 1) in
    if 0 <=? r then r else if Ascii.eqb a c then i else -1.
Proof. reflexivity. Qed.

Lemma rfind_at_app c s1 s2 i :
  0 <= i ->
  pystr.rfind_at c (s1 +:+ s2) i =
    let r := pystr.rfind_at c s2 (i + Z.of_nat (String.length s1)) in
    if 0 <=? r then r else pystr.rfind_at c s1 i.
Proof.
  revert i. induction s1 as [|a s1 IH]; intros i Hi.
  - change ("" +:+ s2) with s2. simpl. rewrite Z.add_0_r.
    destruct (rfind_at_range c s2 i Hi) as [-> | Hr]; [done|].
    destruct (Z.leb_spec 0 (pystr.rfind_at c s2 i)); [done | lia].
  - rewrite app_cons, !rfind_at_cons, (IH (i + 1)) by lia. cbv zeta.
    replace (i + Z.of_nat (String.length (String a s1)))
      with (i + 1 + Z.of_nat (String.length s1))
      by (change (String.length (String a s1)) with (S (String.length s1)); lia).
    destruct (0 <=? pystr.rfind_at c s2 (i + 1 + Z.of_nat (String.length s1))) eqn:E;
      [by rewrite E | done].
Qed.

(** The last occurrence of [c] in [s1 ++ c ++ s2] when [s2] has none. *)
Lemma rfind_last c s1 s2 :
  pystr.mem c s2 = false ->
  pystr.rfind c (s1 +:+ String c s2) = Z.of_nat (String.length s1).
Proof.
  intros H. unfold pystr.rfind. rewrite rfind_at_app by lia. cbv zeta.
  rewrite rfind_at_cons. cbv zeta. rewrite (rfind_at_absent _ _ _ H).
  rewrite Ascii.eqb_refl. change (0 <=? -1) with false. cbv iota. rewrite Z.add_0_l.
  destruct (Z.leb_spec 0 (Z.of_nat (String.length s1))); [done | lia].
Qed.

Lemma rfind_app_absent c s1 s2 :
  pystr.mem c s2 = false -> pystr.rfind c (s1 +:+ s2) = pystr.rfind c s1.
Proof.
  intros H. unfold pystr.rfind. rewrite rfind_at_app by lia. cbv zeta.
  by rewrite (rfind_at_absent _ _ _ H).
Qed.

Lemma rfind_lt c s : pystr.rfind c s + 1 <= Z.of_nat (String.length s).
Proof. unfold pystr.rfind. destruct (rfind_at_range c s 0); lia. Qed.

Lemma rfind_ge c s : -1 <= pystr.rfind c s.
Proof. unfold pystr.rfind. destruct (rfind_at_range c s 0); lia. Qed.

(** [os.path.splitext] removes a final [.ext] from a name whose last
    component holds a character other than a dot before it. *)
Lemma splitext_ext (A B ext : string) :
  pystr.mem "/" B = false -> pystr.all_in "." B = false ->
  pystr.mem "/" ext = false -> pystr.mem "." ext = false ->
  posixpath.splitext (A +:+ B +:+ String "." ext) = (A +:+ B, String "." ext).
Proof.
  intros HB HBdot Hext Hdot. rewrite <- app_assoc_str.
  unfold posixpath.splitext.
  rewrite (rfind_last "." (A +:+ B) ext Hdot).
  rewrite (rfind_app_absent "/" (A +:+ B) (String "." ext)) by (simpl; by rewrite Hext).
  rewrite (rfind_app_absent "/" A B HB).
  pose proof (rfind_lt "/" A) as Hlt. pose proof (rfind_ge "/" A) as Hge.
  rewrite length_app_str, Nat2Z.id.
  destruct (Z.ltb_spec (pystr.rfind "/" A) (Z.of_nat (String.length A + String.length B)));
    [|lia].
  rewrite <- length_app_str, take_app_length, drop_app_length.
  rewrite drop_app_le by lia.
  by rewrite all_in_app, HBdot, andb_false_r.
Qed.

Lemma endswith_app_slash (s t : string) :
  t <> EmptyString -> pystr.endswith (s +:+ t) "/" = pystr.endswith t "/".
Proof.
  intros Ht. induction s as [|a s IH]; [done|].
  rewrite app_cons. simpl. rewrite IH.
  destruct (s +:+ t) eqn:E.
  - destruct s; [by subst | discriminate].
  - by destruct (Ascii.eqb a "/").
Qed.

Lemma join_relative (a b : string) :
  pystr.startswith b "/" = false -> a <> EmptyString -> pystr.endswith a "/" = false ->
  posixpath.join a b = a +:+ "/" +:+ b.
Proof.
  intros Hb Ha He. unfold posixpath.join. rewrite Hb, He.
  by destruct (String.eqb_spec a "").
Qed.

(** The [.temp] directory of any directory is a non-empty path that
    does not end with a separator. *)
Lemma join_temp (d : string) :
  posixpath.join d ".temp" <> EmptyString
  /\ pystr.endswith (posixpath.join d ".temp") "/" = false.
Proof.
  unfold posixpath.join. simpl pystr.startswith. cbv iota.
  destruct (String.eqb d "" || pystr.endswith d "/").
  - split; [by destruct d | by rewrite endswith_app_slash].
  - split; [by destruct d | by rewrite endswith_app_slash].
Qed.

Lemma startswith_app (s t : string) c :
  pystr.startswith s "/" = false -> c <> "/"%char ->
  pystr.startswith (s +:+ String c t) "/" = false.
Proof.
  destruct s as [|a s].
  - intros _ Hc. change ("" +:+ String c t) with (String c t). simpl.
    apply Ascii.eqb_neq in Hc. by rewrite Hc.
  - intros H _. rewrite app_cons. simpl in *. by destruct (Ascii.eqb a "/").
Qed.

(** ** File names of the tracking and dissimilarity stages *)

Section Naming.

Variable par_eudx_seeds : Z.
Variable par_trk_suffix : string.

Lemma seed_unit_cases seed : seed_unit seed = "K" \/ seed_unit seed = "M".
Proof. unfold seed_unit. destruct (seed <? 1000000); auto. Qed.

Lemma seed_unit_pre_plain seed (pre : string) :
  pystr.mem "/" pre = false ->
  pystr.mem "/" (seed_unit seed +:+ pre) = false
  /\ pystr.all_in "." (seed_unit seed +:+ pre) = false.
Proof.
  intros H. destruct (seed_unit_cases seed) as [-> | ->]; by rewrite mem_app, H.
Qed.

(** The name [compute_tracking] writes is the name
    [tractome_preprocessing] reads, whatever the parameters. *)
Lemma trk_basename_agree (subj_name : string) :
  tracking_trk_basename par_eudx_seeds par_trk_suffix subj_name
  = tractome_trk_basename par_eudx_seeds par_trk_suffix subj_name.
Proof.
  unfold tracking_trk_basename, tractome_trk_basename, seed_tag.
  by rewrite ?app_assoc_str.
Qed.

(** The names of the two stages.  When the suffix parameter is a name
    part that ends in an extension (as in [<subj>_<seedcount><K|M>.trk])
    and the subject name does not begin with a separator, the [.spa]
    basename is the [.trk] basename with its extension replaced, and
    the record's path is that name in the [.temp] subdirectory. *)
Lemma trk_spa_names (subj_name src_trk_dir pre ext : string) :
  par_trk_suffix = pre +:+ String "." ext ->
  pystr.mem "/" pre = false ->
  pystr.mem "/" ext = false ->
  pystr.mem "." ext = false ->
  pystr.startswith subj_name "/" = false ->
  let stem := subj_name +:+ seed_tag par_eudx_seeds +:+ pre in
  tracking_trk_basename par_eudx_seeds par_trk_suffix subj_name
    = tractome_trk_basename par_eudx_seeds par_trk_suffix subj_name
  /\ tractome_trk_basename par_eudx_seeds par_trk_suffix subj_name
     = stem +:+ String "." ext
  /\ tractome_spa_basename par_eudx_seeds par_trk_suffix subj_name
     = stem +:+ ".spa"
  /\ tractome_out_spa_file par_eudx_seeds par_trk_suffix src_trk_dir subj_name
     = posixpath.join src_trk_dir ".temp" +:+ "/" +:+ stem +:+ ".spa".
Proof.
  intros Hsuf Hpre Hext Hdot Hsubj stem.
  destruct (seed_unit_pre_plain par_eudx_seeds pre Hpre) as [HB HBdot].
  assert (Htrk : tractome_trk_basename par_eudx_seeds par_trk_suffix subj_name
                 = stem +:+ String "." ext).
  { unfold tractome_trk_basename, stem, seed_tag. rewrite Hsuf.
    by rewrite ?app_assoc_str. }
  assert (Hspa : tractome_spa_basename par_eudx_seeds par_trk_suffix subj_name
                 = stem +:+ ".spa").
  { unfold tractome_spa_basename, tractome_trk_basename. rewrite Hsuf.
    pose proof (splitext_ext
      (subj_name +:+ "_" +:+ pystr.fmt_d (seed_number par_eudx_seeds))
      (seed_unit par_eudx_seeds +:+ pre) ext HB HBdot Hext Hdot) as Hs.
    rewrite ?app_assoc_str in Hs. rewrite ?app_assoc_str, Hs. simpl fst.
    unfold stem, seed_tag. by rewrite ?app_assoc_str. }
  split; [apply trk_basename_agree|].
  split; [exact Htrk|]. split; [exact Hspa|].
  unfold tractome_out_spa_file, tractome_out_spa_dir. rewrite Hspa.
  destruct (join_temp src_trk_dir) as [Hne Hend].
  rewrite join_relative; [by rewrite ?app_assoc_str | | done | done].
  unfold stem, seed_tag. rewrite ?app_assoc_str.
  by apply startswith_app.
Qed.


End Naming.

(** The layout of the spec: subject [s], one million seeds, suffix [.trk]. *)
Example ex_layout :
  tracking_trk_basename 1000000 ".trk" "s" = "s_1M.trk"
  /\ tractome_trk_basename 1000000 ".trk" "s" = "s_1M.trk"
  /\ tractome_spa_basename 1000000 ".trk" "s" = "s_1M.spa"
  /\ tractome_out_spa_file 1000000 ".trk" "trk" "s" = "trk/.temp/s_1M.spa".
Proof. repeat split; reflexivity. Qed.

(** ** The file system *)

Lemma write_file_ok (p : string) (c : content) (w : world) :
  writable (files w) p = true ->
  write_file p c w
  = Returned tt (tick (set_files (insert p (File (clock w) c)) w)).
Proof.
  unfold writable, write_file. intros H.
  destruct (files w !! p) as [[t|t c']|]; try done; by rewrite H.
Qed.

Lemma write_file_fail (p : string) (c : content) (w : world) :
  writable (files w) p = false -> write_file p c w = Raised IOError w.
Proof.
  unfold writable, write_file. intros H.
  destruct (files w !! p) as [[t|t c']|]; try done; by rewrite H.
Qed.

(** Writing a regular file leaves every directory in place. *)
Lemma parent_ok_insert_file (fs : gmap string node) (q p : string) t c :
  writable fs q = true -> parent_ok fs p = true ->
  parent_ok (<[q := File t c]> fs) p = true.
Proof.
  unfold writable, parent_ok. intros Hq.
  destruct (String.eqb (posixpath.dirname p) "" || pystr.all_in "/" (posixpath.dirname p));
    [done|].
  intros Hp. destruct (decide (q = posixpath.dirname p)) as [-> | Hne].
  - by destruct (fs !! posixpath.dirname p) as [[?|? ?]|].
  - by rewrite lookup_insert_ne.
Qed.

Lemma writable_insert_file (fs : gmap string node) (q p : string) t c :
  writable fs q = true -> writable fs p = true ->
  writable (<[q := File t c]> fs) p = true.
Proof.
  intros Hq Hp. unfold writable.
  destruct (decide (q = p)) as [<- | Hne].
  - rewrite lookup_insert_eq. apply parent_ok_insert_file; [done|].
    unfold writable in Hq. by destruct (fs !! q) as [[?|? ?]|].
  - rewrite lookup_insert_ne by done. unfold writable in Hp.
    destruct (fs !! p) as [[?|? ?]|] eqn:E; try done;
      by apply parent_ok_insert_file.
Qed.

Lemma read_file_ok (p : string) (w : world) t c :
  files w !! p = Some (File t c) -> read_file p w = Returned c w.
Proof. unfold read_file. by intros ->. Qed.

Lemma nib_load_ok (p : string) (w : world) t img :
  files w !! p = Some (File t (Nifti img)) -> nib_load p w = Returned img w.
Proof. intros H. unfold nib_load, bind. by rewrite (read_file_ok _ _ _ _ H). Qed.

(** ** The tracking stage *)

Lemma qlt_iff (a b : Q) : qlt a b = true <-> (a < b)%Q.
Proof.
  unfold qlt. rewrite negb_true_iff. split.
  - intros H. apply Qnot_le_lt. intros Hle. apply Qle_bool_iff in Hle. congruence.
  - intros H. destruct (Qle_bool b a) eqn:E; [|done].
    apply Qle_bool_iff in E. by apply Qlt_not_le in H.
Qed.

Section Tracking.

Variable par_fa_suffix par_evecs_suffix : string.
Variable par_eudx_seeds : Z.
Variable par_eudx_threshold : Q.
Variable par_trk_min par_trk_max : Q.
Variable par_trk_suffix par_dipy_suffix : string.
Variable get_zooms : image -> list Q.
Variable get_sphere : string -> list point.
Variable quantize_evecs : ndarray -> list point -> ndarray.
Variable EuDX : ndarray -> ndarray -> Z -> list point -> Q -> nat -> list streamline.
Variable length : streamline -> Q.

Local Abbreviation keep := (length_filter par_trk_min par_trk_max length).
Local Abbreviation tracking :=
  (compute_tracking par_fa_suffix par_evecs_suffix par_eudx_seeds par_eudx_threshold
     par_trk_min par_trk_max par_trk_suffix par_dipy_suffix
     get_zooms get_sphere quantize_evecs EuDX length).
Local Abbreviation trk_basename := (tracking_trk_basename par_eudx_seeds par_trk_suffix).
Local Abbreviation dipy_basename := (tracking_dipy_basename par_eudx_seeds par_dipy_suffix).

Lemma length_filter_iff (sl : streamline) :
  keep sl = true
  <-> (par_trk_min < length sl)%Q /\ (length sl < par_trk_max)%Q.
Proof. unfold length_filter. by rewrite andb_true_iff, !qlt_iff. Qed.

Lemma points_of_records (l : list streamline) :
  map (fun r : trk_record => fst (fst r)) (map (fun sl => (sl, None, None)) l) = l.
Proof. induction l as [|x l IH]; simpl; [done | by rewrite IH]. Qed.

(** The world a successful run leaves. *)
Lemma compute_tracking_run
    (src_dti_dir out_trk_dir subj_name : string) (w : world)
    (fa evecs : image) (t1 t2 : Z) :
  let out_trk_file := posixpath.join out_trk_dir (trk_basename subj_name) in
  let out_dipy_file := posixpath.join out_trk_dir (dipy_basename subj_name) in
  let sphere := get_sphere "symmetric724" in
  let streamlines :=
    EuDX (img_data fa) (quantize_evecs (img_data evecs) sphere)
         par_eudx_seeds sphere par_eudx_threshold in
  let hdr := {| voxel_size := firstn 3 (get_zooms fa); voxel_order := "LAS";
                dim := firstn 3 (shape (img_data fa)) |} in
  files w !! posixpath.join src_dti_dir (subj_name +:+ par_fa_suffix)
    = Some (File t1 (Nifti fa)) ->
  files w !! posixpath.join src_dti_dir (subj_name +:+ par_evecs_suffix)
    = Some (File t2 (Nifti evecs)) ->
  writable (files w) out_trk_file = true ->
  writable (files w) out_dipy_file = true ->
  tracking src_dti_dir out_trk_dir subj_name w
  = Returned tt
      {| files := <[out_dipy_file := File (clock w + 1) (Dpy (streamlines 1%nat))]>
                    (<[out_trk_file :=
                         File (clock w)
                              (Trk hdr (map (fun sl => (sl, None, None))
                                            (List.filter keep (streamlines 0%nat))))]>
                       (files w));
         stdout := stdout w;
         clock := clock w + 1 + 1 |}.
Proof.
  intros out_trk_file out_dipy_file sphere streamlines hdr Hfa Hev Wtrk Wdpy.
  unfold compute_tracking, bind.
  rewrite (nib_load_ok _ _ _ _ Hfa), (nib_load_ok _ _ _ _ Hev).
  unfold trackvis_write. fold out_trk_file. rewrite (write_file_ok _ _ _ Wtrk).
  fold out_dipy_file. rewrite write_file_ok
    by (simpl; by apply writable_insert_file).
  reflexivity.
Qed.

(** C5: in every run of the tracking stage that finds its two input
    volumes and can write its outputs, the streamlines handed to the
    trackvis file are, in the tracker's order, those of the tracker's
    output whose arc length is strictly greater than the minimum and
    strictly less than the maximum; none of them has a length equal
    to either bound.  They are what the file holds afterwards, unless
    the dipy container has the same name and replaces it. *)
Theorem C5_tracking_keeps_strictly_between
    (src_dti_dir out_trk_dir subj_name : string) (w : world)
    (fa evecs : image) (t1 t2 : Z) :
  let out_trk_file := posixpath.join out_trk_dir (trk_basename subj_name) in
  let out_dipy_file := posixpath.join out_trk_dir (dipy_basename subj_name) in
  let sphere := get_sphere "symmetric724" in
  let streamlines :=
    EuDX (img_data fa) (quantize_evecs (img_data evecs) sphere)
         par_eudx_seeds sphere par_eudx_threshold in
  let hdr := {| voxel_size := firstn 3 (get_zooms fa); voxel_order := "LAS";
                dim := firstn 3 (shape (img_data fa)) |} in
  files w !! posixpath.join src_dti_dir (subj_name +:+ par_fa_suffix)
    = Some (File t1 (Nifti fa)) ->
  files w !! posixpath.join src_dti_dir (subj_name +:+ par_evecs_suffix)
    = Some (File t2 (Nifti evecs)) ->
  writable (files w) out_trk_file = true ->
  writable (files w) out_dipy_file = true ->
  exists w' retained,
    tracking src_dti_dir out_trk_dir subj_name w = Returned tt w'
    /\ files w'
       = <[out_dipy_file := File (clock w + 1) (Dpy (streamlines 1%nat))]>
           (<[out_trk_file :=
                File (clock w) (Trk hdr (map (fun sl => (sl, None, None)) retained))]>
              (files w))
    /\ (out_trk_file <> out_dipy_file -> persisted_trk w' out_trk_file = Some retained)
    /\ retained = List.filter keep (streamlines 0%nat)
    /\ (forall sl, In sl retained
                   <-> In sl (streamlines 0%nat)
                       /\ (par_trk_min < length sl)%Q /\ (length sl < par_trk_max)%Q)
    /\ (forall sl, In sl retained ->
                   ~ (length sl == par_trk_min)%Q /\ ~ (length sl == par_trk_max)%Q).
Proof.
  intros out_trk_file out_dipy_file sphere streamlines hdr Hfa Hev Wtrk Wdpy.
  eexists. exists (List.filter keep (streamlines 0%nat)).
  split; [by apply (compute_tracking_run src_dti_dir out_trk_dir subj_name w fa evecs t1 t2)|].
  split; [reflexivity|]. split.
  { intros Hne. unfold persisted_trk. simpl files.
    fold out_trk_file out_dipy_file.
    by rewrite lookup_insert_ne, lookup_insert_eq, points_of_records. }
  split; [reflexivity|]. split.
  - intros sl. by rewrite List.filter_In, length_filter_iff.
  - intros sl [_ H]%List.filter_In. apply length_filter_iff in H as [Hmin Hmax].
    split; intros E; rewrite E in *; by eapply Qlt_irrefl.
Qed.

(** The two outputs of a run side by side: the trackvis file receives
    the streamlines of the first traversal of the tracker that pass
    the length filter; the dipy container receives every streamline
    of a second traversal, with no filter applied. *)
Theorem tracking_trk_filtered_dpy_unfiltered
    (src_dti_dir out_trk_dir subj_name : string) (w : world)
    (fa evecs : image) (t1 t2 : Z) :
  let out_trk_file := posixpath.join out_trk_dir (trk_basename subj_name) in
  let out_dipy_file := posixpath.join out_trk_dir (dipy_basename subj_name) in
  let sphere := get_sphere "symmetric724" in
  let streamlines :=
    EuDX (img_data fa) (quantize_evecs (img_data evecs) sphere)
         par_eudx_seeds sphere par_eudx_threshold in
  files w !! posixpath.join src_dti_dir (subj_name +:+ par_fa_suffix)
    = Some (File t1 (Nifti fa)) ->
  files w !! posixpath.join src_dti_dir (subj_name +:+ par_evecs_suffix)
    = Some (File t2 (Nifti evecs)) ->
  writable (files w) out_trk_file = true ->
  writable (files w) out_dipy_file = true ->
  out_trk_file <> out_dipy_file ->
  exists w',
    tracking src_dti_dir out_trk_dir subj_name w = Returned tt w'
    /\ persisted_trk w' out_trk_file = Some (List.filter keep (streamlines 0%nat))
    /\ persisted_dpy w' out_dipy_file = Some (streamlines 1%nat)
    /\ (streamlines 0%nat = streamlines 1%nat ->
        forall sl, In sl (List.filter keep (streamlines 0%nat))
                   <-> In sl (streamlines 1%nat) /\ keep sl = true).
Proof.
  intros out_trk_file out_dipy_file sphere streamlines Hfa Hev Wtrk Wdpy Hne.
  eexists. split.
  { by apply (compute_tracking_run src_dti_dir out_trk_dir subj_name w fa evecs t1 t2). }
  unfold persisted_trk, persisted_dpy. simpl files. fold out_trk_file out_dipy_file.
  rewrite lookup_insert_eq, lookup_insert_ne, lookup_insert_eq by done.
  rewrite points_of_records.
  split; [done|]. split; [done|].
  intros Heq sl. rewrite List.filter_In. by rewrite Heq.
Qed.

End Tracking.

(** The parameters of the examples: suffixes as in the layout of the
    spec, one million seeds, lengths between 2 and 100. *)
Example ex_lengths : demo.length demo.sl_long == 5 /\ demo.length demo.sl_short == 1.
Proof. split; reflexivity. Qed.

Example ex_length_filter :
  length_filter 2 100 demo.length demo.sl_long = true
  /\ length_filter 2 100 demo.length demo.sl_short = false
  /\ length_filter 1 100 demo.length demo.sl_short = false
  /\ length_filter 2 5 demo.length demo.sl_long = false.
Proof. repeat split; reflexivity. Qed.

Lemma C5_tracking_keeps_strictly_between_witness :
  (files demo.w_dti !! "dti/s_fa.nii" = Some (File 2 (Nifti demo.vol))
   /\ files demo.w_dti !! "dti/s_evecs.nii" = Some (File 3 (Nifti demo.vol))
   /\ writable (files demo.w_dti) "dti/s_1M.trk" = true
   /\ writable (files demo.w_dti) "dti/s_1M.dpy" = true)
  /\ exists w',
       compute_tracking "_fa.nii" "_evecs.nii" 1000000 (1 # 5) 1 5 ".trk" ".dpy"
         demo.get_zooms demo.get_sphere demo.quantize_evecs demo.EuDX demo.length
         "dti" "dti" "s" demo.w_dti = Returned tt w'
       /\ persisted_trk w' "dti/s_1M.trk"
          = Some (List.filter (length_filter 1 5 demo.length) [demo.sl_long; demo.sl_short])
       /\ ~ In demo.sl_long (List.filter (length_filter 1 5 demo.length)
                               [demo.sl_long; demo.sl_short])
       /\ ~ In demo.sl_short (List.filter (length_filter 1 5 demo.length)
                                [demo.sl_long; demo.sl_short]).
Proof.
  split; [repeat split; reflexivity|].
  destruct (C5_tracking_keeps_strictly_between "_fa.nii" "_evecs.nii" 1000000 (1 # 5) 1 5
              ".trk" ".dpy" demo.get_zooms demo.get_sphere demo.quantize_evecs
              demo.EuDX demo.length "dti" "dti" "s" demo.w_dti demo.vol demo.vol 2 3
              eq_refl eq_refl eq_refl eq_refl)
    as (w' & retained & Hrun & _ & Htrk & Hret & _ & Hstrict).
  subst retained. exists w'. split; [exact Hrun|].
  split; [exact (Htrk ltac:(discriminate))|].
  split; intros Hin.
  - destruct (Hstrict demo.sl_long Hin) as [_ Hmax]. apply Hmax. reflexivity.
  - destruct (Hstrict demo.sl_short Hin) as [Hmin _]. apply Hmin. reflexivity.
Defined.

(** C1, on the code: one run on the example subject, with the bounds 2
    and 100 and a tracker that yields a streamline of length 5 and
    one of length 1.  The trackvis file holds the one streamline that
    passes the filter; the dipy container holds both. *)
Theorem C1_dpy_holds_filtered_out_streamline :
  exists w',
    compute_tracking "_fa.nii" "_evecs.nii" 1000000 (1 # 5) 2 100 ".trk" ".dpy"
      demo.get_zooms demo.get_sphere demo.quantize_evecs demo.EuDX demo.length
      "dti" "dti" "s" demo.w_dti = Returned tt w'
    /\ persisted_trk w' "dti/s_1M.trk" = Some [demo.sl_long]
    /\ persisted_dpy w' "dti/s_1M.dpy" = Some [demo.sl_long; demo.sl_short]
    /\ length_filter 2 100 demo.length demo.sl_short = false
    /\ persisted_dpy w' "dti/s_1M.dpy" <> persisted_trk w' "dti/s_1M.trk".
Proof.
  eexists. split; [vm_compute; reflexivity|].
  split; [vm_compute; reflexivity|].
  split; [vm_compute; reflexivity|].
  split; [vm_compute; reflexivity|].
  vm_compute. discriminate.
Qed.

Lemma tracking_trk_filtered_dpy_unfiltered_witness :
  (files demo.w_dti !! "dti/s_fa.nii" = Some (File 2 (Nifti demo.vol))
   /\ files demo.w_dti !! "dti/s_evecs.nii" = Some (File 3 (Nifti demo.vol))
   /\ writable (files demo.w_dti) "dti/s_1M.trk" = true
   /\ writable (files demo.w_dti) "dti/s_1M.dpy" = true
   /\ "dti/s_1M.trk"%string <> "dti/s_1M.dpy"%string)
  /\ exists w',
       compute_tracking "_fa.nii" "_evecs.nii" 1000000 (1 # 5) 2 100 ".trk" ".dpy"
         demo.get_zooms demo.get_sphere demo.quantize_evecs demo.EuDX demo.length
         "dti" "dti" "s" demo.w_dti = Returned tt w'
       /\ persisted_trk w' "dti/s_1M.trk"
          = Some (List.filter (length_filter 2 100 demo.length) [demo.sl_long; demo.sl_short])
       /\ persisted_dpy w' "dti/s_1M.dpy" = Some [demo.sl_long; demo.sl_short].
Proof.
  split; [split; [reflexivity | split; [reflexivity | split; [reflexivity | split;
          [reflexivity | discriminate]]]]|].
  destruct (tracking_trk_filtered_dpy_unfiltered "_fa.nii" "_evecs.nii" 1000000 (1 # 5) 2 100
              ".trk" ".dpy" demo.get_zooms demo.get_sphere demo.quantize_evecs
              demo.EuDX demo.length "dti" "dti" "s" demo.w_dti demo.vol demo.vol 2 3)
    as (w' & Hrun & Htrk & Hdpy & _).
  - reflexivity.
  - reflexivity.
  - reflexivity.
  - reflexivity.
  - discriminate.
  - exists w'. split; [exact Hrun|]. split; [exact Htrk | exact Hdpy].
Defined.

(** ** [dicom_to_nifti] *)

Lemma join_not_root (a b : string) :
  pystr.all_in "/" b = false -> is_root (posixpath.join a b) = false.
Proof.
  intros Hb. unfold is_root, posixpath.join.
  destruct (pystr.startswith b "/"); [by rewrite Hb, andb_false_r|].
  destruct (String.eqb a "" || pystr.endswith a "/");
    rewrite ?all_in_app, Hb, ?andb_false_r; done.
Qed.

Lemma world_eta (w : world) :
  {| files := files w; stdout := stdout w; clock := clock w |} = w.
Proof. by destruct w. Qed.

(** [if os.path.exists(p): os.remove(p)] deletes [p] and nothing else,
    provided [p] is not a directory. *)
Lemma remove_if_exists_ok (p : string) (w : world) :
  is_root p = false ->
  (forall t, files w !! p <> Some (Dir t)) ->
  remove_if_exists p w = Returned tt (set_files (delete p) w).
Proof.
  intros Hroot Hdir. unfold remove_if_exists, bind, os_path_exists, exists_in, os_remove.
  rewrite Hroot. simpl.
  destruct (files w !! p) as [[t|t c]|] eqn:E; simpl; rewrite ?E.
  - by destruct (Hdir t).
  - done.
  - unfold ret, set_files. by rewrite delete_id, world_eta.
Qed.

Section Dicom.

Variable shell : string -> world -> world.

(** C10: called with a source and an output directory, the stage
    first deletes the files [<subj>_<tag>.nii], [<subj>.bval] and
    [<subj>.bvec] of the output directory; every other entry, the
    output and the clock are as before, and it is on that world that
    the rest of the stage, the converter included, runs. *)
Theorem C10_preclean_frame (src_dir out_dir subj_name tag opt : string) (w : world) :
  let nii := posixpath.join out_dir (subj_name +:+ "_" +:+ tag +:+ ".nii") in
  let bval := posixpath.join out_dir (subj_name +:+ ".bval") in
  let bvec := posixpath.join out_dir (subj_name +:+ ".bvec") in
  (forall p t, In p [nii; bval; bvec] -> files w !! p <> Some (Dir t)) ->
  exists w',
    dicom_preclean (Some src_dir) (Some out_dir) subj_name tag w = Returned tt w'
    /\ files w' = delete bvec (delete bval (delete nii (files w)))
    /\ stdout w' = stdout w /\ clock w' = clock w
    /\ (forall p, In p [nii; bval; bvec] -> files w' !! p = None)
    /\ (forall p, ~ In p [nii; bval; bvec] -> files w' !! p = files w !! p)
    /\ dicom_to_nifti shell (Some src_dir) (Some out_dir) subj_name tag opt w
       = (dicom_require_dcm (Some src_dir) ;;
          dicom_run_converter shell (Some src_dir) (Some out_dir) opt ;;
          dicom_collect (Some out_dir) subj_name tag) w'.
Proof.
  intros nii bval bvec Hdir.
  assert (Hrun : dicom_preclean (Some src_dir) (Some out_dir) subj_name tag w
                 = Returned tt (set_files (fun fs => delete bvec (delete bval (delete nii fs))) w)).
  { unfold dicom_preclean, bind. fold nii bval bvec.
    rewrite (remove_if_exists_ok nii).
    2: { apply join_not_root. by rewrite !all_in_app, !andb_false_r. }
    2: { intros t. apply Hdir. simpl; auto. }
    rewrite (remove_if_exists_ok bval).
    2: { apply join_not_root. by rewrite !all_in_app, !andb_false_r. }
    2: { intros t. simpl. intros [_ H]%lookup_delete_Some. revert H.
         apply Hdir. simpl; auto. }
    rewrite (remove_if_exists_ok bvec).
    2: { apply join_not_root. by rewrite !all_in_app, !andb_false_r. }
    2: { intros t. simpl. intros [_ [_ H]%lookup_delete_Some]%lookup_delete_Some.
         revert H. apply Hdir. simpl; auto. }
    done. }
  eexists. split; [exact Hrun|]. simpl.
  split; [done|]. split; [done|]. split; [done|].
  split; [|split].
  - intros p [<- | [<- | [<- | []]]].
    + destruct (decide (bvec = nii)) as [-> | ?];
        [apply lookup_delete_eq | rewrite lookup_delete_ne by done].
      destruct (decide (bval = nii)) as [-> | ?];
        [apply lookup_delete_eq | rewrite lookup_delete_ne by done].
      apply lookup_delete_eq.
    + destruct (decide (bvec = bval)) as [-> | ?];
        [apply lookup_delete_eq | rewrite lookup_delete_ne by done].
      apply lookup_delete_eq.
    + apply lookup_delete_eq.
  - intros p Hp. simpl in Hp.
    rewrite !lookup_delete_ne; [done | | |]; intros <-; apply Hp; auto.
  - unfold dicom_to_nifti. unfold bind at 1. by rewrite Hrun.
Qed.

End Dicom.

(** A rerun for subject [s], tag [dmri]: the old volume and the old
    b-values go, the notes and the DICOM source stay. *)
Lemma C10_preclean_frame_witness :
  (forall p t, In p ["out/s_dmri.nii"; "out/s.bval"; "out/s.bvec"] ->
               files demo.w_dicom !! p <> Some (Dir t))
  /\ exists w',
       dicom_preclean (Some "in") (Some "out") "s" "dmri" demo.w_dicom = Returned tt w'
       /\ files w' !! "out/s_dmri.nii" = None
       /\ files w' !! "out/s.bval" = None
       /\ files w' !! "out/notes.txt" = files demo.w_dicom !! "out/notes.txt"
       /\ files w' !! "in/1.dcm" = files demo.w_dicom !! "in/1.dcm".
Proof.
  assert (Hfiles : forall p t, In p ["out/s_dmri.nii"; "out/s.bval"; "out/s.bvec"] ->
                     files demo.w_dicom !! p <> Some (Dir t)).
  { intros p t [<- | [<- | [<- | []]]]; vm_compute; discriminate. }
  split; [exact Hfiles|].
  destruct (C10_preclean_frame demo.shell "in" "out" "s" "dmri" "-d n" demo.w_dicom Hfiles)
    as (w' & Hrun & _ & _ & _ & Hgone & Hkept & _).
  exists w'. split; [exact Hrun|].
  split; [apply Hgone; simpl; auto|].
  split; [apply Hgone; simpl; auto|].
  split; apply Hkept; simpl; intros [H | [H | [H | []]]]; discriminate.
Defined.

(** [min(..., key=...)] returns an element whose key no other key is
    below. *)
Lemma min_from_least {A} (l : list (A * Z)) (x : A) (k : Z) :
  exists kr, In (min_from x k l, kr) ((x, k) :: l)
             /\ forall y ky, In (y, ky) ((x, k) :: l) -> kr <= ky.
Proof.
  revert x k. induction l as [|[y ky] l IH]; intros x k; simpl.
  - exists k. split; [auto|]. intros y ky [[= <- <-] | []]. lia.
  - destruct (Z.ltb_spec ky k) as [Hlt | Hge].
    + destruct (IH y ky) as (kr & Hin & Hmin). exists kr. split.
      * destruct Hin as [H | H]; auto.
      * intros z kz [[= <- <-] | Hz]; [|by apply (Hmin z kz)].
        specialize (Hmin y ky (or_introl eq_refl)). lia.
    + destruct (IH x k) as (kr & Hin & Hmin). exists kr. split.
      * destruct Hin as [H | H]; auto.
      * intros z kz [Hz | [[= <- <-] | Hz]].
        -- apply (Hmin z kz). by left.
        -- specialize (Hmin x k (or_introl eq_refl)). lia.
        -- apply (Hmin z kz). by right.
Qed.

Lemma bind_returned {A B} (c : py A) (k : A -> py B) (w w' : world) (a : A) :
  c w = Returned a w' -> bind c k w = k a w'.
Proof. unfold bind. by intros ->. Qed.

Lemma map_py_getctime (l : list string) (w : world) :
  (forall p, In p l -> exists n, files w !! p = Some n) ->
  map_py (fun x => k <- os_path_getctime x ;; ret (x, k)) l w
  = Returned (map (fun p => (p, from_option node_ctime 0 (files w !! p))) l) w.
Proof.
  induction l as [|p l IH]; intros H; [done|].
  destruct (H p (or_introl eq_refl)) as [n Hn].
  assert (Hp : (k <- os_path_getctime p ;; ret (p, k)) w = Returned (p, node_ctime n) w).
  { unfold bind, os_path_getctime. rewrite Hn. by destruct n. }
  cbn [map_py map]. rewrite (bind_returned _ _ _ _ _ Hp).
  rewrite (bind_returned _ _ _ _ _ (IH (fun q Hq => H q (or_intror Hq)))).
  by rewrite Hn.
Qed.

(** The file [dicom_to_nifti] takes for the converter's new file is one
    whose [ctime] no [.nii] file of the directory is below: the one
    changed least recently. *)
Lemma dicom_new_file_least (out_dir : string) (w : world) :
  let all_file :=
    filter (fun p => glob_match out_dir ".nii" p = true) (map fst (map_to_list (files w))) in
  all_file <> [] ->
  exists f, dicom_new_file out_dir w = Returned f w
            /\ In f all_file
            /\ forall g, In g all_file ->
                 from_option node_ctime 0 (files w !! f)
                 <= from_option node_ctime 0 (files w !! g).
Proof.
  intros all_file Hne. unfold dicom_new_file, bind, glob_ext, py_min_key, bind.
  fold all_file. rewrite map_py_getctime.
  2: { intros p Hp. apply list_elem_of_In, list_elem_of_filter in Hp as [_ Hp].
       apply list_elem_of_fmap in Hp as ([q n] & -> & Hq).
       apply elem_of_map_to_list in Hq. eauto. }
  destruct all_file as [|x l]; [done|]. simpl.
  destruct (min_from_least
              (map (fun p => (p, from_option node_ctime 0 (files w !! p))) l)
              x (from_option node_ctime 0 (files w !! x))) as (kr & Hin & Hmin).
  set (key := fun p : string => (p, from_option node_ctime 0 (files w !! p))) in *.
  change ((x, from_option node_ctime 0 (files w !! x)) :: map key l)
    with (map key (x :: l)) in *.
  apply in_map_iff in Hin as (f & [= Hf <-] & Hfin).
  eexists. split; [reflexivity|]. rewrite <- Hf in *. split; [done|].
  intros g Hg. apply Hmin with (y := g). apply in_map_iff. by exists g.
Qed.

(** C3, on the code: with [a.nii] changed at time 100 and [b.nii] at
    time 200 in the output directory, the stage takes [a.nii], the
    older one, for the converter's new file. *)
Theorem C3_new_file_is_oldest :
  dicom_new_file "out" demo.w_nii = Returned "out/a.nii" demo.w_nii
  /\ os_path_getctime "out/a.nii" demo.w_nii = Returned 100 demo.w_nii
  /\ os_path_getctime "out/b.nii" demo.w_nii = Returned 200 demo.w_nii.
Proof. repeat split; vm_compute; reflexivity. Qed.

(** A diffusion conversion into a directory that holds the subject's
    structural volume: the stage takes that older volume for the new
    file, so the converter's outputs keep their names and no
    [s_dmri.nii] appears. *)
Example ex_second_conversion :
  exists w',
    dicom_to_nifti demo.converter (Some "in") (Some "out") "s" "dmri" "-d n" demo.w_second_run
      = Returned tt w'
    /\ files w' !! "out/s_dmri.nii" = None
    /\ files w' !! "out/scan.nii" = Some (File 1000 (Nifti demo.vol))
    /\ files w' !! "out/s.bval" = None.
Proof. eexists. repeat split; vm_compute; reflexivity. Qed.

(** ** [rescaling_isotropic_voxel] and its sibling [eddy_current_correction] *)

Lemma os_path_join_some (d b : string) :
  os_path_join (Some d) b = ret (posixpath.join d b).
Proof.
  unfold os_path_join, posixpath.join. by destruct (pystr.startswith b "/").
Qed.

Lemma nib_load_fail (p : string) (w : world) :
  (forall t img, files w !! p <> Some (File t (Nifti img))) ->
  exists e, nib_load p w = Raised e w.
Proof.
  intros H. unfold nib_load, bind, read_file.
  destruct (files w !! p) as [[t|t [img| | | |]]|] eqn:E; eauto.
  by destruct (H t img).
Qed.

(** Unfolding the combinators of the monad. *)
Ltac unfold_py :=
  unfold bind, try_except, try_except_only, os_path_join, local, print,
    sys_exit, ret, raise.

(** A bare [except] whose handler does not end the process catches
    every way out of the body. *)
Lemma try_except_no_exit {A} (body handler : py A) (w w' : world) :
  (forall w1 w2, handler w1 <> Exited w2) -> try_except body handler w <> Exited w'.
Proof.
  intros H. unfold try_except. destruct (body w); [done | apply H | apply H].
Qed.

Section Rescaling.

Variable par_ecc_suffix par_iso_suffix par_bet_suffix : string.
Variable par_ecc_ref : Z.
Variable par_iso_voxel_size : list Q.
Variable shell : string -> world -> world.
Variable get_zooms : image -> list Q.
Variable resample : ndarray -> list Q -> list Q -> list Q -> option (ndarray * list Q).

Local Abbreviation rescaling :=
  (rescaling_isotropic_voxel par_ecc_suffix par_iso_suffix par_iso_voxel_size
     get_zooms resample).
Local Abbreviation eddy :=
  (eddy_current_correction par_ecc_suffix par_bet_suffix par_ecc_ref shell).

(** No run of the isotropic-resampling stage ends the process. *)
Lemma rescaling_never_exits (src_iso_dir out_iso_dir : option string)
    (subj_name : string) (w w' : world) :
  rescaling src_iso_dir out_iso_dir subj_name w <> Exited w'.
Proof.
  unfold rescaling_isotropic_voxel. unfold bind at 1.
  destruct (try_except _ _ w) as [[f|] w1 | e w1 | w1] eqn:E.
  - apply try_except_no_exit. intros w2 w3. by unfold_py.
  - done.
  - done.
  - exfalso. eapply try_except_no_exit; [|exact E]. intros w2 w3. by unfold_py.
Qed.

(** When the source volume cannot be loaded, the stage prints its
    diagnostic with the path of that volume and returns to its
    caller. *)
Lemma rescaling_load_failure_returns (src_iso_dir : string) (out_iso_dir : option string)
    (subj_name : string) (w : world) :
  let src_iso_file := posixpath.join src_iso_dir (subj_name +:+ par_ecc_suffix) in
  (forall t img, files w !! src_iso_file <> Some (File t (Nifti img))) ->
  rescaling (Some src_iso_dir) out_iso_dir subj_name w
  = Returned tt {| files := files w;
                   stdout := stdout w ++ ["FAIL: isotropic rescaling - File: " +:+ src_iso_file];
                   clock := clock w |}.
Proof.
  intros src_iso_file Hload. unfold rescaling_isotropic_voxel.
  rewrite os_path_join_some. fold src_iso_file.
  destruct (nib_load_fail src_iso_file w Hload) as [e He].
  unfold_py.
  destruct (pystr.startswith (subj_name +:+ par_iso_suffix) "/"), out_iso_dir;
    by rewrite ?He.
Qed.

(** The sibling stage ends the process after the same kind of
    failure: it calls [sys.exit()]. *)
Lemma eddy_failure_exits (src_ecc_dir subj_name : string) (w : world) :
  pystr.startswith (subj_name +:+ par_ecc_suffix) "/" = false ->
  eddy (Some src_ecc_dir) None subj_name w
  = Exited {| files := files w;
              stdout := stdout w ++ ["FAIL: eddy_correct - File: "
                          +:+ posixpath.join src_ecc_dir (subj_name +:+ par_bet_suffix)];
              clock := clock w |}.
Proof.
  intros Hrel. unfold eddy_current_correction. rewrite os_path_join_some.
  unfold_py. by rewrite Hrel.
Qed.

End Rescaling.

(** C2, on the code: the volume [dti/s_ecc.nii] is missing; the stage
    prints the diagnostic and returns normally, the process goes on. *)
Theorem C2_failed_rescaling_returns :
  rescaling_isotropic_voxel "_ecc.nii" "_iso.nii" [2; 2; 2]%Q demo.get_zooms demo.resample
    (Some "dti") (Some "dti") "s" demo.w_dti
  = Returned tt {| files := files demo.w_dti;
                   stdout := ["FAIL: isotropic rescaling - File: dti/s_ecc.nii"];
                   clock := clock demo.w_dti |}.
Proof. vm_compute. reflexivity. Qed.

Example ex_eddy_exits :
  eddy_current_correction "_ecc.nii" "_bet.nii" 0 demo.shell (Some "dti") None "s" demo.w_dti
  = Exited {| files := files demo.w_dti;
              stdout := ["FAIL: eddy_correct - File: dti/s_bet.nii"];
              clock := clock demo.w_dti |}.
Proof. vm_compute. reflexivity. Qed.

(** ** [tractome_preprocessing] *)

(** *** Paths and their parents *)

Lemma mem_slash (a : ascii) : pystr.mem a "/" = Ascii.eqb "/" a.
Proof. simpl. apply orb_false_r. Qed.

Lemma endswith_cons a (s suf : string) :
  pystr.endswith (String a s) suf
  = String.eqb (String a s) suf || pystr.endswith s suf.
Proof. reflexivity. Qed.

Lemma all_slashes_end (d : string) :
  d <> EmptyString -> pystr.all_in "/" d = true -> pystr.endswith d "/" = true.
Proof.
  induction d as [|a d IH]; [done|]. intros _ H.
  cbn [pystr.all_in] in H. apply andb_true_iff in H as [Ha Hd].
  rewrite mem_slash in Ha. apply Ascii.eqb_eq in Ha as <-.
  destruct d as [|b d]; [done|].
  rewrite endswith_cons, IH by done. apply orb_true_r.
Qed.

Lemma rstrip_cons chars a (s : string) :
  pystr.rstrip chars (String a s)
  = match pystr.rstrip chars s with
    | EmptyString => if pystr.mem a chars then EmptyString else String a EmptyString
    | String _ _ => String a (pystr.rstrip chars s)
    end.
Proof. reflexivity. Qed.

Lemma rstrip_app_slash (d : string) :
  d <> EmptyString -> pystr.endswith d "/" = false -> pystr.rstrip "/" (d +:+ "/") = d.
Proof.
  induction d as [|a d IH]; [done|]. intros _ H.
  rewrite app_cons. rewrite endswith_cons in H.
  apply orb_false_elim in H as [Ha Hd].
  destruct d as [|b d].
  - change (pystr.rstrip "/" (String a ("" +:+ "/")))
      with (if pystr.mem a "/" then EmptyString else String a EmptyString).
    rewrite mem_slash. destruct (Ascii.eqb_spec "/" a) as [<- | Hne]; [done | done].
  - by rewrite rstrip_cons, IH.
Qed.

(** [os.path.split] of a name [b] inside a directory [d]. *)
Lemma split_child (d b : string) :
  d <> EmptyString -> pystr.endswith d "/" = false -> pystr.mem "/" b = false ->
  posixpath.split (d +:+ "/" +:+ b) = (d, b).
Proof.
  intros Hd Hend Hb. unfold posixpath.split.
  change (d +:+ "/" +:+ b) with (d +:+ String "/" b).
  rewrite (rfind_last "/" d b Hb).
  replace (Z.to_nat (Z.of_nat (String.length d) + 1))
    with (String.length (d +:+ "/")) by (rewrite length_app_str; simpl; lia).
  change (d +:+ String "/" b) with (d +:+ "/" +:+ b).
  rewrite <- app_assoc_str, take_app_length, drop_app_length.
  assert (Hall : pystr.all_in "/" (d +:+ "/") = false).
  { rewrite all_in_app. destruct (pystr.all_in "/" d) eqn:E; [|done].
    rewrite (all_slashes_end d Hd E) in Hend. done. }
  rewrite Hall. destruct (String.eqb_spec (d +:+ "/") "") as [E | _].
  - by destruct d.
  - simpl. by rewrite rstrip_app_slash.
Qed.


Lemma mem_take c (n : nat) (s : string) :
  pystr.mem c s = false -> pystr.mem c (pystr.take n s) = false.
Proof.
  revert n. induction s as [|a s IH]; intros [|n] H; simpl in *; try done.
  apply orb_false_elim in H as [-> Hs]. by rewrite IH.
Qed.

Lemma mem_splitext c (p : string) :
  pystr.mem c p = false -> pystr.mem c (fst (posixpath.splitext p)) = false.
Proof.
  intros H. unfold posixpath.splitext.
  repeat case_match; simpl; auto using mem_take.
Qed.

Lemma uint_no_slash (d : Decimal.uint) : pystr.mem "/" (NilEmpty.string_of_uint d) = false.
Proof. induction d; simpl; auto. Qed.

Lemma fmt_d_no_slash (z : Z) : pystr.mem "/" (pystr.fmt_d z) = false.
Proof. unfold pystr.fmt_d. destruct (Z.to_int z); simpl; apply uint_no_slash. Qed.

Lemma startswith_no_slash (b : string) :
  pystr.mem "/" b = false -> pystr.startswith b "/" = false.
Proof.
  destruct b as [|a b]; [done|]. simpl. intros H.
  apply orb_false_elim in H as [-> _]. done.
Qed.



Lemma take_drop_str (n : nat) (s : string) : pystr.take n s +:+ pystr.drop n s = s.
Proof.
  revert n. induction s as [|a s IH]; intros [|n]; simpl; try done.
  by rewrite app_cons, IH.
Qed.

Lemma app_empty_r_str (s : string) : s +:+ "" = s.
Proof. induction s as [|a s IH]; [done|]. by rewrite app_cons, IH. Qed.

Lemma rfind_at_present c s i :
  0 <= i -> pystr.mem c s = true -> 0 <= pystr.rfind_at c s i.
Proof.
  revert i. induction s as [|a s IH]; intros i Hi H; [done|].
  rewrite rfind_at_cons. cbv zeta.
  destruct (Z.leb_spec 0 (pystr.rfind_at c s (i + 1))) as [Hr | Hr]; [done|].
  cbn [pystr.mem] in H. destruct (Ascii.eqb a c); [done|].
  simpl in H. specialize (IH (i + 1) ltac:(lia) H). lia.
Qed.

(** A string in which [c] occurs splits at the last occurrence. *)
Lemma rfind_at_decompose c s i :
  0 <= i -> 0 <= pystr.rfind_at c s i ->
  exists s1 s2, s = s1 +:+ String c s2 /\ pystr.mem c s2 = false.
Proof.
  revert i. induction s as [|a s IH]; intros i Hi H; [done|].
  rewrite rfind_at_cons in H. cbv zeta in H.
  destruct (Z.leb_spec 0 (pystr.rfind_at c s (i + 1))) as [Hr | Hr].
  - destruct (IH (i + 1) ltac:(lia) Hr) as (s1 & s2 & -> & Hs2).
    exists (String a s1), s2. by rewrite app_cons.
  - destruct (Ascii.eqb_spec a c) as [-> | Hne]; [|lia].
    exists EmptyString, s. split; [done|].
    destruct (pystr.mem c s) eqn:E; [|done].
    pose proof (rfind_at_present c s (i + 1) ltac:(lia) E). lia.
Qed.

(** The head that [os.path.split] cuts off is empty or ends with the
    separator. *)
Lemma take_rfind_slash (p : string) :
  let head0 := pystr.take (Z.to_nat (pystr.rfind "/" p + 1)) p in
  head0 = EmptyString \/ exists s1, head0 = s1 +:+ "/".
Proof.
  intros head0. subst head0.
  destruct (Z.leb_spec 0 (pystr.rfind "/" p)) as [Hr | Hr].
  - right. destruct (rfind_at_decompose "/" p 0 ltac:(lia) Hr) as (s1 & s2 & -> & Hs2).
    exists s1. rewrite (rfind_last "/" s1 s2 Hs2).
    replace (Z.to_nat (Z.of_nat (String.length s1) + 1))
      with (String.length (s1 +:+ "/")) by (rewrite length_app_str; simpl; lia).
    change (s1 +:+ String "/" s2) with (s1 +:+ "/" +:+ s2).
    by rewrite <- app_assoc_str, take_app_length.
  - left. pose proof (rfind_ge "/" p).
    replace (pystr.rfind "/" p) with (-1) by lia. by destruct p.
Qed.

Lemma rstrip_decompose chars (s : string) :
  exists sl, s = pystr.rstrip chars s +:+ sl /\ pystr.all_in chars sl = true.
Proof.
  induction s as [|a s (sl & Hs & Hsl)]; [by exists EmptyString|].
  rewrite rstrip_cons. destruct (pystr.rstrip chars s) as [|b r] eqn:E.
  - change ("" +:+ sl) with sl in Hs. subst sl.
    destruct (pystr.mem a chars) eqn:Ha.
    + exists (String a s). split; [done|]. cbn [pystr.all_in]. by rewrite Ha.
    + by exists s.
  - exists sl. split; [|done]. by rewrite app_cons, <- Hs.
Qed.

Lemma rstrip_slash_end (s : string) :
  pystr.endswith (pystr.rstrip "/" s) "/" = false.
Proof.
  induction s as [|a s IH]; [done|].
  rewrite rstrip_cons. destruct (pystr.rstrip "/" s) as [|b r] eqn:E.
  - rewrite mem_slash. destruct (Ascii.eqb_spec "/" a) as [<- | Hne]; [done|].
    rewrite endswith_cons. simpl. apply Ascii.eqb_neq in Hne.
    rewrite Ascii.eqb_sym, Hne. done.
  - rewrite endswith_cons, IH, orb_false_r.
    apply String.eqb_neq. discriminate.
Qed.

Lemma endswith_app_self (a suf : string) : pystr.endswith (a +:+ suf) suf = true.
Proof.
  induction a as [|c a IH].
  - change ("" +:+ suf) with suf. destruct suf; simpl; [done|].
    by rewrite Ascii.eqb_refl, String.eqb_refl.
  - by rewrite app_cons, endswith_cons, IH, orb_true_r.
Qed.

(** What [os.path.split] returns, put together again: between the
    head and the tail are the separators that were stripped. *)
Lemma split_decompose (p h t : string) :
  posixpath.split p = (h, t) ->
  exists sl, p = h +:+ sl +:+ t /\ pystr.all_in "/" sl = true
             /\ (h <> EmptyString -> pystr.all_in "/" h = false -> sl <> EmptyString).
Proof.
  unfold posixpath.split.
  pose proof (take_drop_str (Z.to_nat (pystr.rfind "/" p + 1)) p) as Hp.
  pose proof (take_rfind_slash p) as Hh. cbv zeta in Hh.
  set (head0 := pystr.take (Z.to_nat (pystr.rfind "/" p + 1)) p) in *.
  set (tail := pystr.drop (Z.to_nat (pystr.rfind "/" p + 1)) p) in *.
  destruct (negb (String.eqb head0 "") && negb (pystr.all_in "/" head0)) eqn:Hc;
    intros [= <- <-].
  - destruct (rstrip_decompose "/" head0) as (sl & Hs & Hsl).
    exists sl. split; [by rewrite <- app_assoc_str, <- Hs|]. split; [done|].
    intros _ _ ->. rewrite app_empty_r_str in Hs.
    destruct Hh as [Hh | [s1 Hh]].
    + rewrite Hh in Hc. done.
    + pose proof (rstrip_slash_end head0) as He. rewrite <- Hs, Hh in He.
      by rewrite endswith_app_self in He.
  - exists EmptyString. split; [done|]. split; [done|].
    intros Hne Hall. apply String.eqb_neq in Hne. by rewrite Hne, Hall in Hc.
Qed.

(** A head that is neither empty nor the root lies above the path. *)
Lemma split_head_above (p h t : string) :
  posixpath.split p = (h, t) -> h <> EmptyString -> pystr.all_in "/" h = false ->
  exists rest, p = h +:+ "/" +:+ rest.
Proof.
  intros Hs Hne Hall. destruct (split_decompose p h t Hs) as (sl & -> & Hsl & Hsl').
  specialize (Hsl' Hne Hall). destruct sl as [|c sl]; [done|].
  cbn [pystr.all_in] in Hsl. apply andb_true_iff in Hsl as [Hc _].
  rewrite mem_slash in Hc. apply Ascii.eqb_eq in Hc as <-.
  exists (sl +:+ t). by rewrite app_cons.
Qed.

(** *** What [os.makedirs] creates *)

Lemma created_under_refl (name : string) (fs : gmap string node) :
  created_under name fs fs.
Proof. intros p. by left. Qed.

Lemma created_under_trans (name : string) (fs1 fs2 fs3 : gmap string node) :
  created_under name fs1 fs2 -> created_under name fs2 fs3 -> created_under name fs1 fs3.
Proof.
  intros H12 H23 p.
  destruct (H23 p) as [E3 | (E2 & [t E3] & Hp)], (H12 p) as [E1 | (E1 & [t' E2'] & Hp')].
  - left. congruence.
  - right. split; [done|]. split; [|done]. exists t'. congruence.
  - right. split; [congruence|]. eauto.
  - congruence.
Qed.

(** What is created under a directory is created under any path
    below that directory. *)
Lemma created_under_above (head name rest : string) (fs fs' : gmap string node) :
  name = head +:+ "/" +:+ rest -> created_under head fs fs' -> created_under name fs fs'.
Proof.
  intros Hname H p. destruct (H p) as [E | (E & Ht & [-> | [r Hr]])]; [by left | |].
  - right. split; [done|]. split; [done|]. right. by exists rest.
  - right. split; [done|]. split; [done|]. right. exists (r +:+ "/" +:+ rest).
    rewrite Hname, Hr. by rewrite !app_assoc_str.
Qed.

Lemma created_under_only_dirs (name : string) (fs fs' : gmap string node) :
  created_under name fs fs' -> only_dirs_added fs fs'.
Proof. intros H p. destruct (H p) as [E | (E & Ht & _)]; [by left | by right]. Qed.

Lemma os_mkdir_creates_under (p : string) (w : world) : creates_under p w (os_mkdir p w).
Proof.
  unfold os_mkdir, exists_in.
  destruct (is_root p); simpl; [split; [apply created_under_refl | done]|].
  destruct (files w !! p) eqn:E; simpl; [split; [apply created_under_refl | done]|].
  destruct (parent_ok (files w) p); simpl; (split; [|done]);
    [|apply created_under_refl].
  intros q. destruct (decide (p = q)) as [<- | Hne].
  - right. split; [done|]. split; [|by left]. exists (clock w). apply lookup_insert_eq.
  - left. by apply lookup_insert_ne.
Qed.

Lemma creates_under_step {A} (name : string) (w w1 : world) (r : outcome A) :
  created_under name (files w) (files w1) -> stdout w1 = stdout w ->
  creates_under name w1 r -> creates_under name w r.
Proof.
  intros Hfs Hout. destruct r as [b w2 | e w2 | w2]; simpl; [| |done];
    intros [H2 Ho2]; (split; [by eapply created_under_trans | congruence]).
Qed.

(** [os.makedirs(name)] creates [name] and directories above it, where
    there was nothing, and nothing else, whether it succeeds or
    raises. *)
Lemma makedirs_go_creates_under (fuel : nat) (name : string) (w : world) :
  creates_under name w (makedirs_go fuel name w).
Proof.
  revert name w. induction fuel as [|fuel IH]; intros name w.
  - simpl. split; [apply created_under_refl | done].
  - cbn [makedirs_go]. destruct (posixpath.split name) as [head tail] eqn:Hs.
    destruct (if String.eqb tail "" then posixpath.split head else (head, tail))
      as [head' tail'] eqn:Hs'.
    destruct (negb (String.eqb head' "") && negb (String.eqb tail' "")
              && negb (exists_in (files w) head')) eqn:Hc; [|apply os_mkdir_creates_under].
    apply andb_true_iff in Hc as [[Hne _]%andb_true_iff Hex].
    apply negb_true_iff, String.eqb_neq in Hne. apply negb_true_iff in Hex.
    assert (Hall : pystr.all_in "/" head' = false).
    { unfold exists_in, is_root in Hex. apply orb_false_elim in Hex as [Hroot _].
      apply String.eqb_neq in Hne. by rewrite Hne in Hroot. }
    assert (Habove : exists rest, name = head' +:+ "/" +:+ rest).
    { destruct (String.eqb_spec tail "") as [-> | Ht].
      - destruct (split_head_above head head' tail' Hs' Hne Hall) as [r1 Hr1].
        destruct (split_decompose name head "" Hs) as (sl & Hn & _).
        exists (r1 +:+ sl). rewrite Hn, Hr1, app_empty_r_str. by rewrite !app_assoc_str.
      - injection Hs' as <- <-. by apply (split_head_above name head tail). }
    destruct Habove as [rest Hrest].
    specialize (IH head' w).
    destruct (makedirs_go fuel head' w) as [[] w1 | e w1 | w1]; [| |done].
    + destruct IH as [Hfs Hout]. apply (created_under_above _ _ _ _ _ Hrest) in Hfs.
      destruct (String.eqb tail' ".").
      * by split.
      * eapply creates_under_step; [exact Hfs | exact Hout |].
        apply os_mkdir_creates_under.
    + destruct IH as [Hfs Hout]. apply (created_under_above _ _ _ _ _ Hrest) in Hfs.
      destruct e; try by split.
      destruct (String.eqb tail' ".").
      * by split.
      * eapply creates_under_step; [exact Hfs | exact Hout |].
        apply os_mkdir_creates_under.
Qed.

Lemma trackvis_read_fail (p : string) (w : world) :
  (forall t hdr streams, files w !! p <> Some (File t (Trk hdr streams))) ->
  exists e, trackvis_read p w = Raised e w.
Proof.
  intros H. unfold trackvis_read, bind, read_file.
  destruct (files w !! p) as [[t|t [|hdr streams| | |]]|] eqn:E; eauto.
  by destruct (H t hdr streams).
Qed.

Section Tractome.

Variable par_eudx_seeds : Z.
Variable par_trk_suffix : string.
Variable par_prototype_distance par_prototype_policy : string.
Variable par_prototype_num : nat.
Variable bundles_distances_mam : streamline -> streamline -> Q.
Variable next_prototype : string -> list streamline -> list streamline -> nat.

Local Abbreviation tractome :=
  (tractome_preprocessing par_eudx_seeds par_trk_suffix par_prototype_distance
     par_prototype_policy par_prototype_num bundles_distances_mam next_prototype).
Local Abbreviation trk_basename := (tractome_trk_basename par_eudx_seeds par_trk_suffix).
Local Abbreviation spa_file := (tractome_out_spa_file par_eudx_seeds par_trk_suffix).

(** C8, as the code has it: when the input streamline file is missing
    or is not a streamline file, the stage raises; it prints nothing,
    leaves every existing entry as it was and writes no file.  What
    it may have created are directories, each of them the [.temp]
    subdirectory or a directory that [.temp] lies under: they are
    made before the input is read.  When [.temp] is already there,
    nothing changes at all. *)
Theorem C8_missing_input_creates_temp_only
    (src_trk_dir subj_name : string) (w : world) :
  (forall t hdr streams,
      files w !! posixpath.join src_trk_dir (trk_basename subj_name)
      <> Some (File t (Trk hdr streams))) ->
  exists e w',
    tractome src_trk_dir subj_name w = Raised e w'
    /\ created_under (tractome_out_spa_dir src_trk_dir) (files w) (files w')
    /\ (forall p n, files w !! p = Some n -> files w' !! p = Some n)
    /\ (forall p t c, files w' !! p = Some (File t c) -> files w !! p = Some (File t c))
    /\ stdout w' = stdout w
    /\ persisted_spa w' (spa_file src_trk_dir subj_name)
       = persisted_spa w (spa_file src_trk_dir subj_name)
    /\ (exists_in (files w) (tractome_out_spa_dir src_trk_dir) = true -> w' = w).
Proof.
  intros Hin.
  set (src := posixpath.join src_trk_dir (trk_basename subj_name)) in *.
  set (spa := spa_file src_trk_dir subj_name).
  set (tmp := tractome_out_spa_dir src_trk_dir).
  (* what follows from creating directories only *)
  assert (Hcons : forall w1, created_under tmp (files w) (files w1) ->
            (forall p n, files w !! p = Some n -> files w1 !! p = Some n)
            /\ (forall p t c, files w1 !! p = Some (File t c) ->
                              files w !! p = Some (File t c))
            /\ persisted_spa w1 spa = persisted_spa w spa).
  { intros w1 H. split; [|split].
    - intros p n Hp. destruct (H p) as [-> | (E & _)]; congruence.
    - intros p t c Hp. destruct (H p) as [<- | (_ & [t' E] & _)]; congruence.
    - unfold persisted_spa. destruct (H spa) as [-> | (-> & [t ->] & _)]; done. }
  unfold tractome_preprocessing.
  rewrite lookup_singleton_eq. unfold bind at 1. unfold ret at 1.
  unfold bind at 1. unfold os_path_exists. fold tmp. fold src.
  destruct (exists_in (files w) tmp) eqn:Hex.
  - unfold bind at 1. unfold ret at 1. unfold bind.
    destruct (trackvis_read_fail src w Hin) as [e ->].
    exists e, w. destruct (Hcons w (created_under_refl _ _)) as (H1 & H2 & H3).
    repeat split; auto using created_under_refl.
  - unfold bind at 1.
    pose proof (makedirs_go_creates_under (S (String.length tmp)) tmp w) as Hmk.
    unfold os_makedirs.
    destruct (makedirs_go _ _ w) as [[] w1 | e w1 | w1]; [| |done].
    + destruct Hmk as [Hfs Hout]. unfold bind.
      destruct (trackvis_read_fail src w1) as [e ->].
      { intros t hdr streams E. destruct (Hfs src) as [E' | (_ & [t' E'] & _)].
        - apply (Hin t hdr streams). congruence.
        - congruence. }
      exists e, w1. destruct (Hcons w1 Hfs) as (H1 & H2 & H3).
      repeat split; auto. done.
    + destruct Hmk as [Hfs Hout]. exists e, w1.
      destruct (Hcons w1 Hfs) as (H1 & H2 & H3). repeat split; auto. done.
Qed.

End Tractome.

(** The tracking directory exists and holds no streamline file: the
    stage raises, and the directory [trk/.temp] is there afterwards. *)
Lemma C8_temp_directory_created_counterexample :
  exists e w',
    tractome_preprocessing 1000000 ".trk" "mam" "sff" 1%nat
      demo.distance demo.next_prototype "trk" "s" demo.w_empty_trk = Raised e w'
    /\ exists_in (files demo.w_empty_trk) "trk/.temp" = false
    /\ exists_in (files w') "trk/.temp" = true
    /\ files w' !! "trk/.temp" = Some (Dir 1000).
Proof. do 2 eexists. repeat split; vm_compute; reflexivity. Qed.

Lemma C8_missing_input_creates_temp_only_witness :
  (forall t hdr streams,
      files demo.w_empty_trk !! "trk/s_1M.trk" <> Some (File t (Trk hdr streams)))
  /\ exists e w',
       tractome_preprocessing 1000000 ".trk" "mam" "sff" 1%nat
         demo.distance demo.next_prototype "trk" "s" demo.w_empty_trk = Raised e w'
       /\ created_under "trk/.temp" (files demo.w_empty_trk) (files w')
       /\ files w' !! "trk" = Some (Dir 1)
       /\ persisted_spa w' "trk/.temp/s_1M.spa" = None.
Proof.
  assert (Hin : forall t hdr streams,
             files demo.w_empty_trk !! "trk/s_1M.trk" <> Some (File t (Trk hdr streams))).
  { intros t hdr streams. vm_compute. discriminate. }
  split; [exact Hin|].
  destruct (C8_missing_input_creates_temp_only 1000000 ".trk" "mam" "sff" 1%nat
              demo.distance demo.next_prototype "trk" "s" demo.w_empty_trk Hin)
    as (e & w' & Hrun & Hfs & Hkeep & _ & _ & Hspa & _).
  exists e, w'. split; [exact Hrun|]. split; [exact Hfs|].
  split; [apply Hkeep; reflexivity | exact Hspa].
Defined.

(** *** The record the stage persists *)

Section Dissimilarity.

Variable par_eudx_seeds : Z.
Variable par_trk_suffix : string.
Variable par_prototype_distance par_prototype_policy : string.
Variable par_prototype_num : nat.
Variable bundles_distances_mam : streamline -> streamline -> Q.
Variable next_prototype : string -> list streamline -> list streamline -> nat.

Local Abbreviation tractome :=
  (tractome_preprocessing par_eudx_seeds par_trk_suffix par_prototype_distance
     par_prototype_policy par_prototype_num bundles_distances_mam next_prototype).
Local Abbreviation trk_basename := (tractome_trk_basename par_eudx_seeds par_trk_suffix).
Local Abbreviation spa_basename := (tractome_spa_basename par_eudx_seeds par_trk_suffix).
Local Abbreviation spa_file := (tractome_out_spa_file par_eudx_seeds par_trk_suffix).
Local Abbreviation select := (select_prototypes next_prototype).
Local Abbreviation dissimilarity := (compute_dissimilarity next_prototype).


(** The prototypes are streamlines of the set. *)
Lemma select_prototypes_from_subset (policy : string) (n : nat)
    (chosen remaining : list streamline) (p : streamline) :
  In p (select_prototypes_from next_prototype policy n chosen remaining) -> In p remaining.
Proof.
  revert chosen remaining. induction n as [|n IH]; intros chosen [|s0 remaining];
    cbn [select_prototypes_from]; try done.
  cbv zeta. intros [<- | H].
  - apply nth_In. apply Nat.mod_upper_bound. cbn [length]. lia.
  - apply IH in H. apply list_elem_of_In. apply list_elem_of_In in H.
    by apply list_elem_of_delete_inv in H.
Qed.


Lemma spa_basename_plain (subj_name : string) :
  pystr.mem "/" subj_name = false -> pystr.mem "/" par_trk_suffix = false ->
  pystr.mem "/" (spa_basename subj_name) = false.
Proof.
  intros Hs Hx. unfold tractome_spa_basename. rewrite mem_app. apply orb_false_intro; [|done].
  apply mem_splitext. unfold tractome_trk_basename.
  rewrite !mem_app, Hs, Hx, fmt_d_no_slash.
  by destruct (seed_unit_cases par_eudx_seeds) as [-> | ->].
Qed.



End Dissimilarity.



Example ex_spa_record :
  exists w',
    tractome_preprocessing 1000000 ".trk" "mam" "sff" 1%nat
      demo.distance demo.next_prototype "trk" "s" demo.w_trk = Returned tt w'
    /\ persisted_spa w' "trk/.temp/s_1M.spa"
       = Some {| dismatrix := [[demo.distance demo.sl_long demo.sl_long];
                               [demo.distance demo.sl_short demo.sl_long]];
                 nprot := 1 |}.
Proof. eexists. split; vm_compute; reflexivity. Qed.

(** ** From the tracking stage to the dissimilarity stage *)


Lemma endswith_slash_inv (d : string) :
  pystr.endswith d "/" = true -> exists d', d = d' +:+ "/".
Proof.
  induction d as [|a d IH]; [done|]. rewrite endswith_cons.
  intros [H | H]%orb_true_iff.
  - apply String.eqb_eq in H as ->. by exists EmptyString.
  - destruct (IH H) as [d' ->]. by exists (String a d').
Qed.

(** [os.path.basename] gives back a plain name joined to a directory. *)
Lemma basename_join (d name : string) :
  pystr.mem "/" name = false -> posixpath.basename (posixpath.join d name) = name.
Proof.
  intros Hname. unfold posixpath.basename, posixpath.join.
  rewrite (startswith_no_slash _ Hname).
  destruct (String.eqb_spec d "") as [-> | Hd]; simpl orb.
  - change ("" +:+ name) with name. unfold pystr.rfind.
    by rewrite rfind_at_absent.
  - destruct (pystr.endswith d "/") eqn:E.
    + destruct (endswith_slash_inv d E) as [d' ->].
      rewrite app_assoc_str. change ("/" +:+ name) with (String "/" name).
      rewrite rfind_last by done.
      replace (Z.to_nat (Z.of_nat (String.length d') + 1))
        with (String.length (d' +:+ "/")) by (rewrite length_app_str; simpl; lia).
      change (d' +:+ String "/" name) with (d' +:+ "/" +:+ name).
      by rewrite <- app_assoc_str, drop_app_length.
    + change (d +:+ "/" +:+ name) with (d +:+ String "/" name).
      rewrite rfind_last by done.
      replace (Z.to_nat (Z.of_nat (String.length d) + 1))
        with (String.length (d +:+ "/")) by (rewrite length_app_str; simpl; lia).
      change (d +:+ String "/" name) with (d +:+ "/" +:+ name).
      by rewrite <- app_assoc_str, drop_app_length.
Qed.



Section Pipeline.

Variable par_fa_suffix par_evecs_suffix : string.
Variable par_eudx_seeds : Z.
Variable par_eudx_threshold : Q.
Variable par_trk_min par_trk_max : Q.
Variable par_trk_suffix par_dipy_suffix : string.
Variable par_prototype_distance par_prototype_policy : string.
Variable par_prototype_num : nat.
Variable get_zooms : image -> list Q.
Variable get_sphere : string -> list point.
Variable quantize_evecs : ndarray -> list point -> ndarray.
Variable EuDX : ndarray -> ndarray -> Z -> list point -> Q -> nat -> list streamline.
Variable length : streamline -> Q.
Variable bundles_distances_mam : streamline -> streamline -> Q.
Variable next_prototype : string -> list streamline -> list streamline -> nat.

Local Abbreviation keep := (length_filter par_trk_min par_trk_max length).
Local Abbreviation tracking :=
  (compute_tracking par_fa_suffix par_evecs_suffix par_eudx_seeds par_eudx_threshold
     par_trk_min par_trk_max par_trk_suffix par_dipy_suffix
     get_zooms get_sphere quantize_evecs EuDX length).
Local Abbreviation tractome :=
  (tractome_preprocessing par_eudx_seeds par_trk_suffix par_prototype_distance
     par_prototype_policy par_prototype_num bundles_distances_mam next_prototype).




End Pipeline.



(** * Further properties of the stages *)

(** ** [dicom_to_nifti]: what happens around the converter *)

Lemma glob_ext_nil (d ext : string) (fs : gmap string node) :
  (forall p n, fs !! p = Some n -> glob_match d ext p = false) ->
  filter (fun p => glob_match d ext p = true) (map fst (map_to_list fs)) = [].
Proof.
  intros H. destruct (filter _ _) as [|x l] eqn:E; [done|].
  assert (Hx : x ∈ filter (fun p => glob_match d ext p = true) (map fst (map_to_list fs)))
    by (rewrite E; left).
  apply list_elem_of_filter in Hx as [Hm Hx].
  apply list_elem_of_fmap in Hx as ([q n] & -> & Hq).
  apply elem_of_map_to_list in Hq. simpl in Hm. rewrite (H q n Hq) in Hm. done.
Qed.

(** The pre-clean step as a function of the world. *)
Lemma dicom_preclean_run (src_dir out_dir subj_name tag : string) (w : world) :
  let nii := posixpath.join out_dir (subj_name +:+ "_" +:+ tag +:+ ".nii") in
  let bval := posixpath.join out_dir (subj_name +:+ ".bval") in
  let bvec := posixpath.join out_dir (subj_name +:+ ".bvec") in
  (forall p t, In p [nii; bval; bvec] -> files w !! p <> Some (Dir t)) ->
  dicom_preclean (Some src_dir) (Some out_dir) subj_name tag w
  = Returned tt (set_files (fun fs => delete bvec (delete bval (delete nii fs))) w).
Proof.
  intros nii bval bvec Hdir. unfold dicom_preclean, bind. fold nii bval bvec.
  rewrite (remove_if_exists_ok nii).
  2: { apply join_not_root. by rewrite !all_in_app, !andb_false_r. }
  2: { intros t. apply Hdir. simpl; auto. }
  rewrite (remove_if_exists_ok bval).
  2: { apply join_not_root. by rewrite !all_in_app, !andb_false_r. }
  2: { intros t. simpl. intros [_ H]%lookup_delete_Some. revert H.
       apply Hdir. simpl; auto. }
  rewrite (remove_if_exists_ok bvec).
  2: { apply join_not_root. by rewrite !all_in_app, !andb_false_r. }
  2: { intros t. simpl. intros [_ [_ H]%lookup_delete_Some]%lookup_delete_Some.
       revert H. apply Hdir. simpl; auto. }
  done.
Qed.

Section DicomEdges.

Variable shell : string -> world -> world.

(** When the source directory holds no [.dcm] file, the stage prints
    its diagnostic and exits without running the converter; by then the
    outputs of the earlier run have been deleted.  The directory name
    holds no pattern character of [glob]. *)
Theorem dicom_no_dcm_exits_after_preclean
    (src_dir out_dir subj_name tag opt : string) (w : world) :
  let nii := posixpath.join out_dir (subj_name +:+ "_" +:+ tag +:+ ".nii") in
  let bval := posixpath.join out_dir (subj_name +:+ ".bval") in
  let bvec := posixpath.join out_dir (subj_name +:+ ".bvec") in
  glob_has_magic src_dir = false ->
  (forall p t, In p [nii; bval; bvec] -> files w !! p <> Some (Dir t)) ->
  (forall p n, files w !! p = Some n -> glob_match src_dir ".dcm" p = false) ->
  dicom_to_nifti shell (Some src_dir) (Some out_dir) subj_name tag opt w
  = Exited {| files := delete bvec (delete bval (delete nii (files w)));
              stdout := stdout w ++ ["FAIL: dcm2nii - FILE: *.dcm not found"];
              clock := clock w |}.
Proof.
  intros nii bval bvec _ Hdir Hdcm. unfold dicom_to_nifti. unfold bind at 1.
  rewrite (dicom_preclean_run src_dir out_dir subj_name tag w Hdir).
  fold nii bval bvec. unfold bind at 1.
  unfold dicom_require_dcm, try_except_only. rewrite os_path_join_some.
  unfold bind at 1. unfold ret at 1. unfold bind at 1. unfold glob_ext.
  rewrite glob_ext_nil; [done|].
  intros p n. simpl. intros [_ [_ [_ H]%lookup_delete_Some]%lookup_delete_Some]%lookup_delete_Some.
  by apply (Hdcm p n).
Qed.

(** With [None] for the source directory the stage raises
    [AttributeError] at once; with [None] for the output directory it
    exits on a missing [.dcm] file and raises [TypeError] otherwise.
    Either way the guard of line 59 has skipped the pre-clean, the
    converter is not run and the files, the clock and, but for the
    diagnostic, the output are as before.  The directory name holds
    no pattern character of [glob]. *)
Theorem dicom_none_directory_never_converts
    (src_dir : string) (out_dir : option string) (subj_name tag opt : string) (w : world) :
  glob_has_magic src_dir = false ->
  dicom_to_nifti shell None out_dir subj_name tag opt w = Raised AttributeError w
  /\ dicom_to_nifti shell (Some src_dir) None subj_name tag opt w
     = match filter (fun p => glob_match src_dir ".dcm" p = true)
                    (map fst (map_to_list (files w))) with
       | [] => Exited {| files := files w;
                         stdout := stdout w ++ ["FAIL: dcm2nii - FILE: *.dcm not found"];
                         clock := clock w |}
       | _ :: _ => Raised TypeError w
       end.
Proof.
  intros _. split.
  - unfold dicom_to_nifti, dicom_preclean, dicom_require_dcm. by destruct out_dir.
  - unfold dicom_to_nifti, dicom_preclean, dicom_require_dcm, try_except_only.
    rewrite os_path_join_some. unfold bind, glob_ext, ret.
    by destruct (filter _ _).
Qed.

End DicomEdges.

(** When the output directory holds no [.nii] file after the
    conversion, [min] finds an empty sequence: the stage raises
    [ValueError] and changes nothing.  The directory name holds no
    pattern character of [glob]. *)
Theorem dicom_collect_no_nii_raises (out_dir subj_name tag : string) (w : world) :
  glob_has_magic out_dir = false ->
  (forall p n, files w !! p = Some n -> glob_match out_dir ".nii" p = false) ->
  dicom_collect (Some out_dir) subj_name tag w = Raised ValueError w.
Proof.
  intros _ H. unfold dicom_collect. rewrite os_path_join_some.
  change (default "" (Some out_dir)) with out_dir.
  unfold bind at 1. unfold ret at 1. unfold bind at 1.
  unfold dicom_new_file, bind at 1. unfold glob_ext.
  by rewrite (glob_ext_nil _ _ _ H).
Qed.

Lemma dicom_no_dcm_exits_after_preclean_witness :
  (glob_has_magic "empty" = false
   /\ (forall p t, In p ["out/s_dmri.nii"; "out/s.bval"; "out/s.bvec"] ->
                   files demo.w_dicom !! p <> Some (Dir t))
   /\ (forall p n, files demo.w_dicom !! p = Some n -> glob_match "empty" ".dcm" p = false))
  /\ dicom_to_nifti demo.converter (Some "empty") (Some "out") "s" "dmri" "-d n" demo.w_dicom
     = Exited {| files := delete "out/s.bvec" (delete "out/s.bval"
                           (delete "out/s_dmri.nii" (files demo.w_dicom)));
                 stdout := ["FAIL: dcm2nii - FILE: *.dcm not found"];
                 clock := clock demo.w_dicom |}.
Proof.
  assert (Hfiles : forall p t, In p ["out/s_dmri.nii"; "out/s.bval"; "out/s.bvec"] ->
                     files demo.w_dicom !! p <> Some (Dir t)).
  { intros p t [<- | [<- | [<- | []]]]; vm_compute; discriminate. }
  assert (Hdcm : forall p n, files demo.w_dicom !! p = Some n ->
                   glob_match "empty" ".dcm" p = false).
  { intros p n Hp. apply elem_of_map_to_list in Hp.
    revert Hp. vm_compute. intros Hp.
    repeat (apply list_elem_of_In in Hp; destruct Hp as [[= <- <-] | Hp];
            [reflexivity | apply list_elem_of_In in Hp]).
    by apply elem_of_nil in Hp. }
  split; [by split|].
  exact (dicom_no_dcm_exits_after_preclean demo.converter "empty" "out" "s" "dmri" "-d n"
           demo.w_dicom eq_refl Hfiles Hdcm).
Defined.

Lemma dicom_collect_no_nii_raises_witness :
  (glob_has_magic "trk" = false
   /\ forall p n, files demo.w_dti !! p = Some n -> glob_match "trk" ".nii" p = false)
  /\ dicom_collect (Some "trk") "s" "dmri" demo.w_dti = Raised ValueError demo.w_dti.
Proof.
  assert (H : forall p n, files demo.w_dti !! p = Some n -> glob_match "trk" ".nii" p = false).
  { intros p n Hp. apply elem_of_map_to_list in Hp.
    revert Hp. vm_compute. intros Hp.
    repeat (apply list_elem_of_In in Hp; destruct Hp as [[= <- <-] | Hp];
            [reflexivity | apply list_elem_of_In in Hp]).
    by apply elem_of_nil in Hp. }
  split; [by split|].
  exact (dicom_collect_no_nii_raises "trk" "s" "dmri" demo.w_dti eq_refl H).
Defined.


Lemma dicom_none_directory_never_converts_witness :
  glob_has_magic "in" = false
  /\ dicom_to_nifti demo.converter None (Some "out") "s" "dmri" "-d n" demo.w_dicom
     = Raised AttributeError demo.w_dicom
  /\ dicom_to_nifti demo.converter (Some "in") None "s" "dmri" "-d n" demo.w_dicom
     = Raised TypeError demo.w_dicom.
Proof.
  split; [reflexivity|].
  destruct (dicom_none_directory_never_converts demo.converter "in" (Some "out")
              "s" "dmri" "-d n" demo.w_dicom eq_refl) as [H1 _].
  destruct (dicom_none_directory_never_converts demo.converter "in" None
              "s" "dmri" "-d n" demo.w_dicom eq_refl) as [_ H2].
  split; [exact H1|]. rewrite H2. vm_compute. reflexivity.
Defined.

(** Whatever the output directory holds, the file the stage takes for
    the converter's new one is a [.nii] file of it whose [ctime] no
    other is below: the one changed least recently.  Finding it
    changes nothing.  The directory name holds no pattern character
    of [glob]. *)
Theorem dicom_new_file_is_least_recent (out_dir : string) (w : world) :
  let all_file :=
    filter (fun p => glob_match out_dir ".nii" p = true) (map fst (map_to_list (files w))) in
  glob_has_magic out_dir = false ->
  all_file <> [] ->
  exists f, dicom_new_file out_dir w = Returned f w
            /\ In f all_file
            /\ forall g, In g all_file ->
                 from_option node_ctime 0 (files w !! f)
                 <= from_option node_ctime 0 (files w !! g).
Proof. intros all_file _. apply dicom_new_file_least. Qed.

(** In the demo directory the file taken is the least recently changed
    of the two volumes. *)
Lemma dicom_new_file_is_least_recent_witness :
  (glob_has_magic "out" = false
   /\ filter (fun p => glob_match "out" ".nii" p = true)
             (map fst (map_to_list (files demo.w_nii))) <> [])
  /\ exists f, dicom_new_file "out" demo.w_nii = Returned f demo.w_nii
               /\ forall g, In g ["out/a.nii"; "out/b.nii"] ->
                    from_option node_ctime 0 (files demo.w_nii !! f)
                    <= from_option node_ctime 0 (files demo.w_nii !! g).
Proof.
  assert (Hne : filter (fun p => glob_match "out" ".nii" p = true)
                       (map fst (map_to_list (files demo.w_nii))) <> [])
    by (vm_compute; discriminate).
  split; [by split|].
  destruct (dicom_new_file_is_least_recent "out" demo.w_nii eq_refl Hne)
    as (f & Hrun & _ & Hmin).
  exists f. split; [exact Hrun|].
  intros g Hg. apply Hmin. revert Hg. vm_compute. tauto.
Defined.

(** ** The name the converter's files share (lines 78-79) *)

Lemma lstrip_app_in (chars pre s : string) :
  pystr.all_in chars pre = true -> pystr.lstrip chars (pre +:+ s) = pystr.lstrip chars s.
Proof.
  induction pre as [|a pre IH]; [done|]. intros H.
  cbn [pystr.all_in] in H. apply andb_true_iff in H as [Ha Hpre].
  rewrite app_cons. cbn [pystr.lstrip]. rewrite Ha. by apply IH.
Qed.

Lemma lstrip_app_keep (chars s t : string) :
  pystr.lstrip chars s <> EmptyString ->
  pystr.lstrip chars (s +:+ t) = pystr.lstrip chars s +:+ t.
Proof.
  induction s as [|a s IH]; [done|]. intros H.
  rewrite app_cons. cbn [pystr.lstrip] in *.
  destruct (pystr.mem a chars); [by apply IH | by rewrite app_cons].
Qed.

Lemma rstrip_all_in (chars s : string) :
  pystr.all_in chars s = true -> pystr.rstrip chars s = EmptyString.
Proof.
  induction s as [|a s IH]; [done|]. intros H.
  cbn [pystr.all_in] in H. apply andb_true_iff in H as [Ha Hs].
  by rewrite rstrip_cons, IH, Ha.
Qed.

Lemma rstrip_app_in (chars s suf : string) :
  pystr.all_in chars suf = true -> pystr.rstrip chars (s +:+ suf) = pystr.rstrip chars s.
Proof.
  intros H. induction s as [|a s IH]; [by apply rstrip_all_in|].
  by rewrite app_cons, !rstrip_cons, IH.
Qed.

(** [strip] undoes any decoration made of characters of its set around
    a name that [strip] itself leaves alone. *)
Lemma strip_decorated (chars pre stem suf : string) :
  stem <> EmptyString -> pystr.strip chars stem = stem ->
  pystr.all_in chars pre = true -> pystr.all_in chars suf = true ->
  pystr.strip chars (pre +:+ stem +:+ suf) = stem.
Proof.
  intros Hne Hstem Hpre Hsuf. unfold pystr.strip in *.
  rewrite lstrip_app_in by done.
  assert (Hl : pystr.lstrip chars stem <> EmptyString).
  { intros E. rewrite E in Hstem. simpl in Hstem. congruence. }
  by rewrite lstrip_app_keep, rstrip_app_in.
Qed.

(** Whichever of the converter's files [X.nii], [oX.nii] and [coX.nii]
    the stage has taken for the new one, [del_file] is [X], as long as
    [X] neither begins nor ends with a character of the stripped set. *)
Theorem dicom_del_file_is_common_name (out_dir X : string) :
  let chars := "co, o, .nii, .bval, .bvec"%string in
  X <> EmptyString -> pystr.strip chars X = X -> pystr.mem "/" X = false ->
  pystr.strip chars (posixpath.basename (posixpath.join out_dir (X +:+ ".nii"))) = X
  /\ pystr.strip chars (posixpath.basename (posixpath.join out_dir ("o" +:+ X +:+ ".nii"))) = X
  /\ pystr.strip chars (posixpath.basename (posixpath.join out_dir ("co" +:+ X +:+ ".nii"))) = X.
Proof.
  intros chars Hne Hstrip Hslash.
  rewrite !basename_join by (rewrite ?mem_app, Hslash; done).
  repeat split.
  - by apply (strip_decorated chars "" X ".nii").
  - by apply (strip_decorated chars "o" X ".nii").
  - by apply (strip_decorated chars "co" X ".nii").
Qed.

Lemma dicom_del_file_is_common_name_witness :
  ("20140101_DTI64s005" <> EmptyString
   /\ pystr.strip "co, o, .nii, .bval, .bvec" "20140101_DTI64s005" = "20140101_DTI64s005"
   /\ pystr.mem "/" "20140101_DTI64s005" = false)
  /\ pystr.strip "co, o, .nii, .bval, .bvec"
       (posixpath.basename (posixpath.join "out" ("20140101_DTI64s005" +:+ ".nii")))
     = "20140101_DTI64s005"
  /\ pystr.strip "co, o, .nii, .bval, .bvec"
       (posixpath.basename (posixpath.join "out" ("co" +:+ "20140101_DTI64s005" +:+ ".nii")))
     = "20140101_DTI64s005".
Proof.
  split; [split; [discriminate | split; reflexivity]|].
  destruct (dicom_del_file_is_common_name "out" "20140101_DTI64s005") as (H1 & _ & H3);
    [discriminate | reflexivity | reflexivity |].
  split; [exact H1 | exact H3].
Defined.

(** A name that ends with characters of the set loses them. *)
Example ex_strip_eats_name :
  pystr.strip "co, o, .nii, .bval, .bvec" (posixpath.basename "out/scan.nii") = "s".
Proof. reflexivity. Qed.


(** ** The tracking stage: names and failures *)

Section TrackingMore.

Variable par_fa_suffix par_evecs_suffix : string.
Variable par_eudx_seeds : Z.
Variable par_eudx_threshold : Q.
Variable par_trk_min par_trk_max : Q.
Variable par_trk_suffix par_dipy_suffix : string.
Variable get_zooms : image -> list Q.
Variable get_sphere : string -> list point.
Variable quantize_evecs : ndarray -> list point -> ndarray.
Variable EuDX : ndarray -> ndarray -> Z -> list point -> Q -> nat -> list streamline.
Variable length : streamline -> Q.

Local Abbreviation keep := (length_filter par_trk_min par_trk_max length).
Local Abbreviation tracking :=
  (compute_tracking par_fa_suffix par_evecs_suffix par_eudx_seeds par_eudx_threshold
     par_trk_min par_trk_max par_trk_suffix par_dipy_suffix
     get_zooms get_sphere quantize_evecs EuDX length).
Local Abbreviation tracking_run :=
  (compute_tracking_run par_fa_suffix par_evecs_suffix par_eudx_seeds par_eudx_threshold
     par_trk_min par_trk_max par_trk_suffix par_dipy_suffix
     get_zooms get_sphere quantize_evecs EuDX length).

(** Every seed count strictly between 100000 and 1000000 is written
    [0K]: the number is divided by a million, the unit is still [K].
    All these counts share the names of their output files. *)
Theorem seed_tag_between_is_0K (subj_name : string) :
  100000 < par_eudx_seeds < 1000000 ->
  seed_tag par_eudx_seeds = "_0K"
  /\ tracking_trk_basename par_eudx_seeds par_trk_suffix subj_name
     = subj_name +:+ "_0K" +:+ par_trk_suffix
  /\ tracking_dipy_basename par_eudx_seeds par_dipy_suffix subj_name
     = subj_name +:+ "_0K" +:+ par_dipy_suffix
  /\ tractome_trk_basename par_eudx_seeds par_trk_suffix subj_name
     = subj_name +:+ "_0K" +:+ par_trk_suffix.
Proof.
  intros [Hlo Hhi].
  assert (Htag : seed_tag par_eudx_seeds = "_0K").
  { unfold seed_tag, seed_number, seed_unit.
    destruct (Z.ltb_spec (10 ^ 5) par_eudx_seeds); [|lia].
    destruct (Z.ltb_spec par_eudx_seeds 1000000); [|lia].
    by rewrite Z.div_small by lia. }
  split; [exact Htag|].
  unfold tracking_trk_basename, tracking_dipy_basename. rewrite Htag.
  split; [done|]. split; [done|].
  rewrite <- (trk_basename_agree par_eudx_seeds par_trk_suffix).
  unfold tracking_trk_basename. by rewrite Htag.
Qed.

Lemma nib_load_cases (p : string) (w : world) :
  (exists img, nib_load p w = Returned img w) \/ (exists e, nib_load p w = Raised e w).
Proof.
  unfold nib_load, bind, read_file.
  destruct (files w !! p) as [[t|t [img| | | |]]|]; eauto.
Qed.

(** When the FA volume or the eigenvector volume cannot be loaded, the
    stage raises before it writes anything: the world is as it was. *)
Theorem compute_tracking_missing_input_writes_nothing
    (src_dti_dir out_trk_dir subj_name : string) (w : world) :
  (forall t img, files w !! posixpath.join src_dti_dir (subj_name +:+ par_fa_suffix)
                 <> Some (File t (Nifti img)))
  \/ (forall t img, files w !! posixpath.join src_dti_dir (subj_name +:+ par_evecs_suffix)
                    <> Some (File t (Nifti img))) ->
  exists e, tracking src_dti_dir out_trk_dir subj_name w = Raised e w.
Proof.
  intros H. unfold compute_tracking. unfold bind at 1.
  destruct H as [Hfa | Hev].
  - destruct (nib_load_fail _ w Hfa) as [e ->]. eauto.
  - destruct (nib_load_cases (posixpath.join src_dti_dir (subj_name +:+ par_fa_suffix)) w)
      as [[img ->] | [e ->]]; [|eauto].
    unfold bind at 1. destruct (nib_load_fail _ w Hev) as [e ->]. eauto.
Qed.

(** When both stage outputs get one name (equal suffixes), the dipy
    container, written second, replaces the trackvis file. *)
Theorem tracking_equal_suffixes_keep_dpy_only
    (src_dti_dir out_trk_dir subj_name : string) (w : world)
    (fa evecs : image) (t1 t2 : Z) :
  let out_file :=
    posixpath.join out_trk_dir (tracking_trk_basename par_eudx_seeds par_trk_suffix subj_name) in
  let sphere := get_sphere "symmetric724" in
  let streamlines :=
    EuDX (img_data fa) (quantize_evecs (img_data evecs) sphere)
         par_eudx_seeds sphere par_eudx_threshold in
  par_dipy_suffix = par_trk_suffix ->
  files w !! posixpath.join src_dti_dir (subj_name +:+ par_fa_suffix)
    = Some (File t1 (Nifti fa)) ->
  files w !! posixpath.join src_dti_dir (subj_name +:+ par_evecs_suffix)
    = Some (File t2 (Nifti evecs)) ->
  writable (files w) out_file = true ->
  exists w',
    tracking src_dti_dir out_trk_dir subj_name w = Returned tt w'
    /\ persisted_dpy w' out_file = Some (streamlines 1%nat)
    /\ persisted_trk w' out_file = None.
Proof.
  intros out_file sphere streamlines Hsuf Hfa Hev Wout.
  eexists. split.
  - apply (tracking_run src_dti_dir out_trk_dir subj_name w fa evecs t1 t2);
      try done. unfold tracking_dipy_basename. rewrite Hsuf. exact Wout.
  - unfold persisted_dpy, persisted_trk. simpl files.
    unfold tracking_dipy_basename. rewrite Hsuf.
    fold (tracking_trk_basename par_eudx_seeds par_trk_suffix subj_name). fold out_file.
    by rewrite lookup_insert_eq.
Qed.

End TrackingMore.

Lemma seed_tag_between_is_0K_witness :
  100000 < 500000 < 1000000
  /\ seed_tag 500000 = "_0K"
  /\ tracking_trk_basename 500000 ".trk" "s" = "s_0K.trk"
  /\ tracking_trk_basename 200000 ".trk" "s" = "s_0K.trk".
Proof.
  split; [lia|].
  destruct (seed_tag_between_is_0K 500000 ".trk" ".dpy" "s") as (H1 & H2 & _); [lia|].
  destruct (seed_tag_between_is_0K 200000 ".trk" ".dpy" "s") as (_ & H3 & _); [lia|].
  split; [exact H1|]. split; [exact H2 | exact H3].
Defined.

Lemma compute_tracking_missing_input_writes_nothing_witness :
  (forall t img, files demo.w_empty_trk !! "trk/s_fa.nii" <> Some (File t (Nifti img)))
  /\ exists e,
       compute_tracking "_fa.nii" "_evecs.nii" 1000000 (1 # 5) 2 100 ".trk" ".dpy"
         demo.get_zooms demo.get_sphere demo.quantize_evecs demo.EuDX demo.length
         "trk" "trk" "s" demo.w_empty_trk = Raised e demo.w_empty_trk.
Proof.
  assert (H : forall t img,
             files demo.w_empty_trk !! "trk/s_fa.nii" <> Some (File t (Nifti img)))
    by (intros t img; vm_compute; discriminate).
  split; [exact H|].
  exact (compute_tracking_missing_input_writes_nothing "_fa.nii" "_evecs.nii" 1000000 (1 # 5)
           2 100 ".trk" ".dpy" demo.get_zooms demo.get_sphere demo.quantize_evecs
           demo.EuDX demo.length "trk" "trk" "s" demo.w_empty_trk (or_introl H)).
Defined.

Lemma tracking_equal_suffixes_keep_dpy_only_witness :
  (".trk" = ".trk"
   /\ files demo.w_dti !! "dti/s_fa.nii" = Some (File 2 (Nifti demo.vol))
   /\ files demo.w_dti !! "dti/s_evecs.nii" = Some (File 3 (Nifti demo.vol))
   /\ writable (files demo.w_dti) "dti/s_1M.trk" = true)
  /\ exists w',
       compute_tracking "_fa.nii" "_evecs.nii" 1000000 (1 # 5) 2 100 ".trk" ".trk"
         demo.get_zooms demo.get_sphere demo.quantize_evecs demo.EuDX demo.length
         "dti" "dti" "s" demo.w_dti = Returned tt w'
       /\ persisted_dpy w' "dti/s_1M.trk" = Some [demo.sl_long; demo.sl_short]
       /\ persisted_trk w' "dti/s_1M.trk" = None.
Proof.
  split; [repeat split; reflexivity|].
  destruct (tracking_equal_suffixes_keep_dpy_only "_fa.nii" "_evecs.nii" 1000000 (1 # 5) 2 100
              ".trk" ".trk" demo.get_zooms demo.get_sphere demo.quantize_evecs
              demo.EuDX demo.length "dti" "dti" "s" demo.w_dti demo.vol demo.vol 2 3)
    as (w' & Hrun & Hd & Ht); try reflexivity.
  exists w'. split; [exact Hrun|]. split; [exact Hd | exact Ht].
Defined.


(** ** The stages that wrap their work in [try] / [except] *)

Section Guarded.

Variable par_ecc_suffix par_iso_suffix par_bet_suffix par_bet_options : string.
Variable par_ecc_ref : Z.
Variable par_iso_voxel_size : list Q.
Variable shell : string -> world -> world.
Variable shell_output : string -> world -> string * string.
Variable get_zooms : image -> list Q.
Variable resample : ndarray -> list Q -> list Q -> list Q -> option (ndarray * list Q).

Local Abbreviation rescaling :=
  (rescaling_isotropic_voxel par_ecc_suffix par_iso_suffix par_iso_voxel_size
     get_zooms resample).
Local Abbreviation eddy :=
  (eddy_current_correction par_ecc_suffix par_bet_suffix par_ecc_ref shell).
Local Abbreviation brain := (brain_extraction par_bet_suffix par_bet_options shell).

(** The isotropic-resampling stage has three outcomes and no other: it
    raises [UnboundLocalError] from its handler, with nothing printed;
    it prints its diagnostic and returns; or it returns after writing
    one volume.  It never ends the process. *)
Theorem rescaling_outcomes (src_iso_dir out_iso_dir : option string)
    (subj_name : string) (w : world) :
  let r := rescaling src_iso_dir out_iso_dir subj_name w in
  r = Raised UnboundLocalError w
  \/ (exists f, r = Returned tt
                      (with_line w ("FAIL: isotropic rescaling - File: " +:+ f)))
  \/ (exists p img, r = Returned tt
                          (tick (set_files (insert p (File (clock w) (Nifti img))) w))).
Proof.
  unfold rescaling_isotropic_voxel, with_line. unfold_py.
  unfold nib_load, nib_save, read_file, write_file, bind, ret, raise.
  destruct (pystr.startswith (subj_name +:+ par_ecc_suffix) "/"), src_iso_dir;
    destruct (pystr.startswith (subj_name +:+ par_iso_suffix) "/"), out_iso_dir;
    cbv beta iota; eauto;
    (match goal with
     | |- context [files w !! ?p] =>
         destruct (files w !! p) as [[t|t [img| | | |]]|]; cbv beta iota; eauto
     end);
    (destruct (resample _ _ _ _) as [[d a]|]; cbv beta iota; eauto);
    (match goal with
     | |- context [match files w !! ?p with _ => _ end] =>
         destruct (files w !! p) as [[t'|t' c']|]; cbv beta iota; eauto
     end);
    (match goal with
     | |- context [parent_ok (files w) ?p] =>
         destruct (parent_ok (files w) p); cbv beta iota; eauto
     end).
Qed.

(** On success the stage writes the volume that [resample] returned,
    with the affine that [resample] returned; loading the output gives
    that image back, and the source volume is still in place. *)
Theorem rescaling_writes_resampled_volume
    (src_iso_dir out_iso_dir subj_name : string) (w : world)
    (t : Z) (img : image) (data : ndarray) (affine : list Q) :
  let src_iso_file := posixpath.join src_iso_dir (subj_name +:+ par_ecc_suffix) in
  let out_iso_file := posixpath.join out_iso_dir (subj_name +:+ par_iso_suffix) in
  let out_img := {| img_data := data; img_affine := affine |} in
  files w !! src_iso_file = Some (File t (Nifti img)) ->
  resample (img_data img) (img_affine img) (firstn 3 (get_zooms img)) par_iso_voxel_size
    = Some (data, affine) ->
  writable (files w) out_iso_file = true ->
  exists w',
    rescaling (Some src_iso_dir) (Some out_iso_dir) subj_name w = Returned tt w'
    /\ files w' = <[out_iso_file := File (clock w) (Nifti out_img)]> (files w)
    /\ stdout w' = stdout w
    /\ nib_load out_iso_file w' = Returned out_img w'
    /\ (src_iso_file <> out_iso_file -> nib_load src_iso_file w' = Returned img w').
Proof.
  intros src_iso_file out_iso_file out_img Hsrc Hres Hout.
  unfold rescaling_isotropic_voxel. rewrite !os_path_join_some.
  fold src_iso_file out_iso_file.
  unfold bind at 1. unfold try_except at 1. unfold bind at 1. unfold ret at 1 2.
  unfold try_except, bind. unfold ret at 1.
  rewrite (nib_load_ok _ _ _ _ Hsrc), Hres.
  unfold nib_save. rewrite (write_file_ok _ _ _ Hout).
  eexists. split; [reflexivity|]. simpl.
  split; [done|]. split; [done|]. split.
  - eapply nib_load_ok. simpl. apply lookup_insert_eq.
  - intros Hne. eapply nib_load_ok. simpl. rewrite lookup_insert_ne by done. exact Hsrc.
Qed.

(** When the source directory is [None], the handler of the
    resampling stage reads a variable that was never assigned: the
    stage raises [UnboundLocalError] and its diagnostic is not
    printed. *)
Theorem rescaling_without_source_raises_unbound
    (out_iso_dir : option string) (subj_name : string) (w : world) :
  pystr.startswith (subj_name +:+ par_ecc_suffix) "/" = false ->
  rescaling None out_iso_dir subj_name w = Raised UnboundLocalError w.
Proof.
  intros Hrel. unfold rescaling_isotropic_voxel. unfold_py. by rewrite Hrel.
Qed.

(** The three ways [eddy_current_correction] ends.  Without a source
    directory its handler fails on the unassigned file name; without
    an output directory it prints its diagnostic and exits; with both
    it runs the command on the two joined paths and the reference
    index. *)
Theorem eddy_current_correction_outcomes
    (src_ecc_dir out_ecc_dir : string) (out : option string) (subj_name : string) (w : world) :
  pystr.startswith (subj_name +:+ par_bet_suffix) "/" = false ->
  pystr.startswith (subj_name +:+ par_ecc_suffix) "/" = false ->
  let src_ecc_file := posixpath.join src_ecc_dir (subj_name +:+ par_bet_suffix) in
  let out_ecc_file := posixpath.join out_ecc_dir (subj_name +:+ par_ecc_suffix) in
  eddy None out subj_name w = Raised UnboundLocalError w
  /\ eddy (Some src_ecc_dir) None subj_name w
     = Exited (with_line w ("FAIL: eddy_correct - File: " +:+ src_ecc_file))
  /\ eddy (Some src_ecc_dir) (Some out_ecc_dir) subj_name w
     = Returned tt (shell ("eddy_correct " +:+ src_ecc_file +:+ " " +:+ out_ecc_file
                           +:+ " " +:+ pystr.fmt_d par_ecc_ref) w).
Proof.
  intros Hbet Hecc src_ecc_file out_ecc_file.
  unfold eddy_current_correction, with_line, pipe. unfold_py.
  rewrite Hbet, Hecc. by repeat split.
Qed.

(** [brain_extraction] never prints its diagnostic and never ends the
    process: its handler reads [src_bet_file], and every step that can
    fail comes before the assignment of that variable.  The stage
    either raises [UnboundLocalError], leaving the world as it was, or
    returns after running one command. *)
Theorem brain_extraction_outcomes (src_bet out_dir : option string)
    (subj_name tag : string) (w : world) :
  let r := brain src_bet out_dir subj_name tag w in
  r = Raised UnboundLocalError w \/ exists cmd, r = Returned tt (shell cmd w).
Proof.
  unfold brain_extraction, pipe, os_path_isdir, os_listdir, py_index0. unfold_py.
  unfold bind, ret, raise.
  destruct (pystr.startswith (subj_name +:+ par_bet_suffix) "/"), out_dir, src_bet;
    repeat (cbv beta iota delta [default from_option id];
            first [ solve [eauto]
                  | match goal with
                    | |- context [if ?b then _ else _] => destruct b
                    | |- context [match ?l with [] => _ | _ :: _ => _ end] => destruct l
                    end ]).
Qed.

(** Without an input directory, or without a file of the subject and
    tag in it, [brain_extraction] raises [UnboundLocalError]: the
    message [FAIL: bet] is not printed. *)
Theorem brain_extraction_missing_input_raises_unbound
    (src_bet out_dir : option string) (subj_name tag : string) (w : world) :
  (src_bet = None
   \/ exists d, src_bet = Some d
                /\ (isdir_in (files w) d = false
                    \/ List.filter (fun f => pystr.endswith f (subj_name +:+ "_" +:+ tag +:+ ".nii"))
                                   (listdir_names (files w) d) = [])) ->
  brain src_bet out_dir subj_name tag w = Raised UnboundLocalError w.
Proof.
  intros H. unfold brain_extraction, pipe, os_path_isdir, os_listdir, py_index0. unfold_py.
  unfold bind, ret, raise.
  destruct H as [-> | (d & -> & [Hd | Hl])].
  - by destruct (pystr.startswith (subj_name +:+ par_bet_suffix) "/"), out_dir.
  - destruct (pystr.startswith (subj_name +:+ par_bet_suffix) "/"), out_dir;
      cbv beta iota delta [default from_option id]; by rewrite ?Hd.
  - destruct (pystr.startswith (subj_name +:+ par_bet_suffix) "/"), out_dir;
      cbv beta iota delta [default from_option id];
      destruct (isdir_in (files w) d) eqn:Hd; cbv beta iota; rewrite ?Hd;
      cbv beta iota; by rewrite ?Hl.
Qed.

(** With an input directory that lists a file of the subject and tag,
    the stage runs [bet] on the first such file, with the output path
    and the configured options, and returns. *)
Theorem brain_extraction_runs_bet_on_first_match
    (src_bet out_dir subj_name tag : string) (w : world) (f : string) (rest : list string) :
  isdir_in (files w) src_bet = true ->
  List.filter (fun f => pystr.endswith f (subj_name +:+ "_" +:+ tag +:+ ".nii"))
              (listdir_names (files w) src_bet) = f :: rest ->
  brain (Some src_bet) (Some out_dir) subj_name tag w
  = Returned tt (shell ("bet " +:+ posixpath.join src_bet f +:+ " "
                        +:+ posixpath.join out_dir (subj_name +:+ par_bet_suffix)
                        +:+ par_bet_options) w).
Proof.
  intros Hd Hl. unfold brain_extraction. rewrite !os_path_join_some.
  unfold pipe, os_path_isdir, os_listdir, py_index0. unfold_py.
  unfold bind, ret, raise. cbv beta iota delta [default from_option id].
  rewrite Hd. cbv beta iota. rewrite Hd, Hl. cbv beta iota.
  by destruct (pystr.startswith f "/") eqn:E; unfold posixpath.join; rewrite ?E.
Qed.

(** The commands the stages build inline are those of the helper
    functions [dcm2nii] and [eddy_correct]. *)
Theorem stages_run_helper_commands
    (src_dir out_dir subj_name filt opt : string) (w : world) :
  pystr.startswith (subj_name +:+ par_bet_suffix) "/" = false ->
  pystr.startswith (subj_name +:+ par_ecc_suffix) "/" = false ->
  dicom_run_converter shell (Some src_dir) (Some out_dir) opt w
    = dcm2nii shell shell_output src_dir out_dir filt opt w
  /\ eddy (Some src_dir) (Some out_dir) subj_name w
     = eddy_correct shell shell_output
         (posixpath.join src_dir (subj_name +:+ par_bet_suffix))
         (posixpath.join out_dir (subj_name +:+ par_ecc_suffix)) par_ecc_ref w.
Proof.
  intros Hbet Hecc. split.
  - unfold dicom_run_converter, dcm2nii, pipe_flags, pipe, str_add, bind, ret.
    destruct (shell_output _ w). by rewrite ?app_assoc_str.
  - unfold eddy_current_correction, eddy_correct, pipe_flags, pipe. unfold_py.
    rewrite Hbet, Hecc. by destruct (shell_output _ w).
Qed.

End Guarded.

Lemma rescaling_writes_resampled_volume_witness :
  (files demo_more.w_ecc !! "dmri/s_ecc.nii" = Some (File 2 (Nifti demo.vol))
   /\ demo.resample (img_data demo.vol) (img_affine demo.vol)
        (firstn 3 (demo.get_zooms demo.vol)) [2; 2; 2]%Q
      = Some (img_data demo.vol, img_affine demo.vol)
   /\ writable (files demo_more.w_ecc) "dmri/s_iso.nii" = true)
  /\ exists w',
       rescaling_isotropic_voxel "_ecc.nii" "_iso.nii" [2; 2; 2]%Q demo.get_zooms demo.resample
         (Some "dmri") (Some "dmri") "s" demo_more.w_ecc = Returned tt w'
       /\ nib_load "dmri/s_iso.nii" w' = Returned demo.vol w'
       /\ nib_load "dmri/s_ecc.nii" w' = Returned demo.vol w'.
Proof.
  split; [repeat split; reflexivity|].
  destruct (rescaling_writes_resampled_volume "_ecc.nii" "_iso.nii" [2; 2; 2]%Q
              demo.get_zooms demo.resample "dmri" "dmri" "s" demo_more.w_ecc 2 demo.vol
              (img_data demo.vol) (img_affine demo.vol))
    as (w' & Hrun & _ & _ & Hout & Hsrc); try reflexivity.
  exists w'. split; [exact Hrun|]. split; [exact Hout|].
  apply Hsrc. discriminate.
Defined.

Lemma rescaling_without_source_raises_unbound_witness :
  pystr.startswith ("s" +:+ "_ecc.nii") "/" = false
  /\ rescaling_isotropic_voxel "_ecc.nii" "_iso.nii" [2; 2; 2]%Q demo.get_zooms demo.resample
       None (Some "dmri") "s" demo_more.w_ecc
     = Raised UnboundLocalError demo_more.w_ecc.
Proof.
  split; [reflexivity|].
  exact (rescaling_without_source_raises_unbound "_ecc.nii" "_iso.nii" [2; 2; 2]%Q
           demo.get_zooms demo.resample (Some "dmri") "s" demo_more.w_ecc eq_refl).
Defined.

Lemma eddy_current_correction_outcomes_witness :
  (pystr.startswith ("s" +:+ "_bet.nii") "/" = false
   /\ pystr.startswith ("s" +:+ "_ecc.nii") "/" = false)
  /\ eddy_current_correction "_ecc.nii" "_bet.nii" 0 demo.shell None (Some "dmri") "s"
       demo_more.w_ecc
     = Raised UnboundLocalError demo_more.w_ecc
  /\ eddy_current_correction "_ecc.nii" "_bet.nii" 0 demo.shell (Some "mri") None "s"
       demo_more.w_ecc
     = Exited (with_line demo_more.w_ecc "FAIL: eddy_correct - File: mri/s_bet.nii")
  /\ eddy_current_correction "_ecc.nii" "_bet.nii" 0 demo.shell (Some "mri") (Some "dmri") "s"
       demo_more.w_ecc
     = Returned tt (demo.shell "eddy_correct mri/s_bet.nii dmri/s_ecc.nii 0" demo_more.w_ecc).
Proof.
  split; [split; reflexivity|].
  destruct (eddy_current_correction_outcomes "_ecc.nii" "_bet.nii" 0 demo.shell
              "mri" "dmri" (Some "dmri") "s" demo_more.w_ecc eq_refl eq_refl)
    as (H1 & H2 & H3).
  split; [exact H1|]. split; [exact H2 | exact H3].
Defined.

Lemma brain_extraction_missing_input_raises_unbound_witness :
  (isdir_in (files demo_more.w_mri) "mri" = true
   /\ List.filter (fun f => pystr.endswith f ("s" +:+ "_" +:+ "dmri" +:+ ".nii"))
                  (listdir_names (files demo_more.w_mri) "mri") = [])
  /\ brain_extraction "_bet.nii" " -F -f .2 -g 0" demo.shell (Some "mri") (Some "mri") "s" "dmri"
       demo_more.w_mri
     = Raised UnboundLocalError demo_more.w_mri.
Proof.
  split; [split; reflexivity|].
  apply brain_extraction_missing_input_raises_unbound.
  right. exists "mri"%string. split; [reflexivity|]. right. reflexivity.
Defined.

Lemma brain_extraction_runs_bet_on_first_match_witness :
  (isdir_in (files demo_more.w_mri) "mri" = true
   /\ List.filter (fun f => pystr.endswith f ("s" +:+ "_" +:+ "mri" +:+ ".nii"))
                  (listdir_names (files demo_more.w_mri) "mri") = ["s_mri.nii"])
  /\ brain_extraction "_bet.nii" " -F -f .2 -g 0" demo.shell (Some "mri") (Some "out") "s" "mri"
       demo_more.w_mri
     = Returned tt (demo.shell "bet mri/s_mri.nii out/s_bet.nii -F -f .2 -g 0" demo_more.w_mri).
Proof.
  split; [split; reflexivity|].
  exact (brain_extraction_runs_bet_on_first_match "_bet.nii" " -F -f .2 -g 0" demo.shell
           "mri" "out" "s" "mri" demo_more.w_mri "s_mri.nii" [] eq_refl eq_refl).
Defined.

Lemma stages_run_helper_commands_witness :
  (pystr.startswith ("s" +:+ "_bet.nii") "/" = false
   /\ pystr.startswith ("s" +:+ "_ecc.nii") "/" = false)
  /\ dicom_run_converter demo.shell (Some "in") (Some "out") "-d n" demo_more.w_ecc
     = dcm2nii demo.shell demo_more.shell_output "in" "out" "*.dcm" "-d n" demo_more.w_ecc
  /\ eddy_current_correction "_ecc.nii" "_bet.nii" 0 demo.shell (Some "in") (Some "out") "s"
       demo_more.w_ecc
     = eddy_correct demo.shell demo_more.shell_output "in/s_bet.nii" "out/s_ecc.nii" 0
         demo_more.w_ecc.
Proof.
  split; [split; reflexivity|].
  exact (stages_run_helper_commands "_ecc.nii" "_bet.nii" 0 demo.shell demo_more.shell_output
           "in" "out" "s" "*.dcm" "-d n" demo_more.w_ecc eq_refl eq_refl).
Defined.


(** ** [compute_reconstruction] *)

Section Reconstruction.

Variable par_iso_suffix par_evecs_suffix par_fa_suffix par_cfa_suffix : string.
Variable parse_txt : string -> option ndarray.
Variable transpose : ndarray -> ndarray.
Variable astype_float32 : ndarray -> ndarray.
Variable astype_uint8 : ndarray -> ndarray.
Variable gtab : Type.
Variable gradient_table : ndarray -> ndarray -> option gtab.
Variable tensor_model_fit : gtab -> ndarray -> option tensor_fit.
Variable fractional_anisotropy : ndarray -> nanarray.
Variable color_fa : ndarray -> ndarray -> ndarray.

Local Abbreviation reconstruction :=
  (compute_reconstruction par_iso_suffix par_evecs_suffix par_fa_suffix par_cfa_suffix
     parse_txt transpose astype_float32 astype_uint8 gtab gradient_table
     tensor_model_fit fractional_anisotropy color_fa).
Local Abbreviation names_with ext w d :=
  (List.filter (fun each => pystr.endswith each ext) (listdir_names (files w) d)).

Lemma gradient_file_ok (d ext name : string) (rest : list string) (w : world) :
  isdir_in (files w) d = true -> names_with ext w d = name :: rest ->
  gradient_file d ext w = Returned (d +:+ name) w.
Proof.
  intros Hd Hl. unfold gradient_file, bind, os_listdir, py_index0, ret.
  by rewrite Hd, Hl.
Qed.

(** Without a [.bval] or without a [.bvec] file in the directory the
    stage raises [IndexError] before it loads or writes anything. *)
Theorem reconstruction_without_gradient_file_raises
    (src_dmri_dir subj_name : string) (w : world) :
  isdir_in (files w) src_dmri_dir = true ->
  names_with ".bval" w src_dmri_dir = [] \/ names_with ".bvec" w src_dmri_dir = [] ->
  reconstruction src_dmri_dir subj_name w = Raised IndexError w.
Proof.
  intros Hd H. unfold compute_reconstruction. unfold bind at 1.
  destruct (names_with ".bval" w src_dmri_dir) as [|n1 r1] eqn:E1.
  - unfold gradient_file, bind, os_listdir, py_index0, raise. by rewrite Hd, E1.
  - destruct H as [H | H]; [done|].
    rewrite (gradient_file_ok _ _ _ _ _ Hd E1). unfold bind at 1.
    unfold gradient_file, bind, os_listdir, py_index0, raise. by rewrite Hd, H.
Qed.

(** The gradient tables are looked for at the directory string
    followed at once by the listed name, with no separator put in
    between.  When nothing is stored under that path (as for a
    directory given without its final separator) the stage raises
    [IOError], though the listing has just shown the file; nothing is
    written. *)
Theorem reconstruction_gradient_path_is_concatenated
    (src_dmri_dir subj_name : string) (w : world)
    (bval bvec : string) (rest1 rest2 : list string) (t : Z) (img : image) :
  isdir_in (files w) src_dmri_dir = true ->
  names_with ".bval" w src_dmri_dir = bval :: rest1 ->
  names_with ".bvec" w src_dmri_dir = bvec :: rest2 ->
  files w !! posixpath.join src_dmri_dir (subj_name +:+ par_iso_suffix)
    = Some (File t (Nifti img)) ->
  files w !! (src_dmri_dir +:+ bval) = None ->
  reconstruction src_dmri_dir subj_name w = Raised IOError w.
Proof.
  intros Hd H1 H2 Himg Hnone. unfold compute_reconstruction.
  unfold bind at 1. rewrite (gradient_file_ok _ _ _ _ _ Hd H1).
  unfold bind at 1. rewrite (gradient_file_ok _ _ _ _ _ Hd H2).
  unfold bind at 1. rewrite (nib_load_ok _ _ _ _ Himg).
  unfold bind at 1. unfold np_loadtxt, bind at 1. unfold read_file. by rewrite Hnone.
Qed.

Lemma np_loadtxt_ok (p text : string) (a : ndarray) (t : Z) (w : world) :
  files w !! p = Some (File t (Raw text)) -> parse_txt text = Some a ->
  np_loadtxt parse_txt p w = Returned a w.
Proof.
  intros Hp Ha. unfold np_loadtxt, bind. rewrite (read_file_ok _ _ _ _ Hp). by rewrite Ha.
Qed.

(** A successful run writes three volumes, each with the affine of the
    diffusion volume: the eigenvectors, the FA map with its undefined
    entries set to zero, and the colour map scaled by 255.  Loading
    them back gives these images. *)
Theorem reconstruction_outputs_share_affine
    (src_dmri_dir subj_name : string) (w : world)
    (bval bvec : string) (rest1 rest2 : list string)
    (t t1 t2 : Z) (img : image) (txt1 txt2 : string) (bvals bvecs : ndarray)
    (g : gtab) (tensors : tensor_fit) :
  let out_evecs_file := posixpath.join src_dmri_dir (subj_name +:+ par_evecs_suffix) in
  let out_fa_file := posixpath.join src_dmri_dir (subj_name +:+ par_fa_suffix) in
  let out_cfa_file := posixpath.join src_dmri_dir (subj_name +:+ par_cfa_suffix) in
  let FA := nan_to_zero (fractional_anisotropy (evals tensors)) in
  isdir_in (files w) src_dmri_dir = true ->
  names_with ".bval" w src_dmri_dir = bval :: rest1 ->
  names_with ".bvec" w src_dmri_dir = bvec :: rest2 ->
  files w !! posixpath.join src_dmri_dir (subj_name +:+ par_iso_suffix)
    = Some (File t (Nifti img)) ->
  files w !! (src_dmri_dir +:+ bval) = Some (File t1 (Raw txt1)) ->
  files w !! (src_dmri_dir +:+ bvec) = Some (File t2 (Raw txt2)) ->
  parse_txt txt1 = Some bvals -> parse_txt txt2 = Some bvecs ->
  gradient_table bvals (transpose bvecs) = Some g ->
  tensor_model_fit g (img_data img) = Some tensors ->
  writable (files w) out_evecs_file = true ->
  writable (files w) out_fa_file = true ->
  writable (files w) out_cfa_file = true ->
  NoDup [out_evecs_file; out_fa_file; out_cfa_file] ->
  exists w',
    reconstruction src_dmri_dir subj_name w = Returned tt w'
    /\ nib_load out_evecs_file w'
       = Returned {| img_data := astype_float32 (evecs tensors);
                     img_affine := img_affine img |} w'
    /\ nib_load out_fa_file w'
       = Returned {| img_data := astype_float32 FA; img_affine := img_affine img |} w'
    /\ nib_load out_cfa_file w'
       = Returned {| img_data := astype_uint8 (scale255 (color_fa FA (evecs tensors)));
                     img_affine := img_affine img |} w'
    /\ shape FA = nan_shape (fractional_anisotropy (evals tensors))
    /\ (forall i x, nan_data (fractional_anisotropy (evals tensors)) !! i = Some x ->
                    data FA !! i = Some (default 0%Q x))
    /\ (forall p, ~ In p [out_evecs_file; out_fa_file; out_cfa_file] ->
                  files w' !! p = files w !! p).
Proof.
  intros out_evecs_file out_fa_file out_cfa_file FA
    Hd H1 H2 Himg Hbval Hbvec Hp1 Hp2 Hg Hfit We Wf Wc Hnd.
  apply NoDup_cons in Hnd as [Hne1 Hnd]. apply NoDup_cons in Hnd as [Hne2 _].
  assert (Hef : out_evecs_file <> out_fa_file) by (intros E; apply Hne1; rewrite E; left).
  assert (Hec : out_evecs_file <> out_cfa_file)
    by (intros E; apply Hne1; rewrite E; right; left).
  assert (Hfc : out_fa_file <> out_cfa_file) by (intros E; apply Hne2; rewrite E; left).
  unfold compute_reconstruction.
  unfold bind at 1. rewrite (gradient_file_ok _ _ _ _ _ Hd H1).
  unfold bind at 1. rewrite (gradient_file_ok _ _ _ _ _ Hd H2).
  unfold bind at 1. rewrite (nib_load_ok _ _ _ _ Himg).
  unfold bind at 1. rewrite (np_loadtxt_ok _ _ _ _ _ Hbval Hp1).
  unfold bind at 1. rewrite (np_loadtxt_ok _ _ _ _ _ Hbvec Hp2).
  rewrite Hg. unfold bind at 1. unfold ret at 1.
  rewrite Hfit. unfold bind at 1. unfold ret at 1.
  fold FA out_evecs_file out_fa_file out_cfa_file.
  unfold nib_save, bind. rewrite (write_file_ok _ _ _ We).
  rewrite write_file_ok by (simpl; by apply writable_insert_file).
  rewrite write_file_ok
    by (simpl; apply writable_insert_file; [by apply writable_insert_file|];
        by apply writable_insert_file).
  eexists. split; [reflexivity|].
  split; [|split; [|split; [|split; [|split]]]].
  - eapply nib_load_ok. simpl.
    rewrite lookup_insert_ne by congruence. rewrite lookup_insert_ne by congruence.
    apply lookup_insert_eq.
  - eapply nib_load_ok. simpl.
    rewrite lookup_insert_ne by congruence. apply lookup_insert_eq.
  - eapply nib_load_ok. simpl. apply lookup_insert_eq.
  - done.
  - intros i x Hi. unfold FA, nan_to_zero. simpl. by rewrite list_lookup_fmap, Hi.
  - intros p Hp. simpl. rewrite !lookup_insert_ne; [done | | |];
      intros <-; apply Hp; simpl; auto.
Qed.

End Reconstruction.

(** ** [atlas_registration] *)

Section Atlas.

Variable par_iso_suffix par_aff_suffix par_atlas_file par_atlas_suffix : string.
Variable par_atlas_dof : Z.
Variable shell : string -> world -> world.
Variable shell_output : string -> world -> string * string.
Variable environ : gmap string string.
Variable os_walk : world -> string -> list (string * list string * list string).

Local Abbreviation atlas :=
  (atlas_registration par_iso_suffix par_aff_suffix par_atlas_file par_atlas_suffix
     par_atlas_dof shell shell_output environ os_walk).

(** Only [IndexError] is caught: without [FSLDIR] in the environment
    the stage raises [KeyError], prints nothing and runs nothing. *)
Theorem atlas_without_fsldir_raises_key_error
    (ref_flirt_dir out_flirt_dir aff_flirt_dir subj_name : string) (w : world) :
  environ !! "FSLDIR" = None ->
  atlas ref_flirt_dir out_flirt_dir aff_flirt_dir subj_name w = Raised KeyError w.
Proof.
  intros H. unfold atlas_registration, try_except_only, bind, raise. by rewrite H.
Qed.

(** When no file under [FSLDIR] ends with the configured atlas name,
    the stage prints a diagnostic that names it and exits; the
    registration tool is not run. *)
Theorem atlas_not_found_exits
    (ref_flirt_dir out_flirt_dir aff_flirt_dir subj_name fsl_dir : string) (w : world) :
  environ !! "FSLDIR" = Some fsl_dir ->
  atlas_candidates par_atlas_file os_walk w fsl_dir = [] ->
  atlas ref_flirt_dir out_flirt_dir aff_flirt_dir subj_name w
  = Exited (with_line w ("FAIL: atlas file not found - File: " +:+ par_atlas_file)).
Proof.
  intros He Hc. unfold atlas_registration, try_except_only, py_index0, with_line.
  unfold_py. by rewrite He, Hc.
Qed.

(** Otherwise the stage registers the first file the walk meets: it
    runs [flirt] on it with the subject's reference, output and matrix
    paths, the configured degrees of freedom followed by the fixed
    options (a second [-dof 12] among them), and then prints the
    captured output and the captured errors of the tool. *)
Theorem atlas_registers_first_candidate
    (ref_flirt_dir out_flirt_dir aff_flirt_dir subj_name fsl_dir : string) (w : world)
    (f : string) (rest : list string) :
  let cmd :=
    ("flirt -in " +:+ f
     +:+ " -ref " +:+ posixpath.join ref_flirt_dir (subj_name +:+ par_iso_suffix)
     +:+ " -out " +:+ posixpath.join out_flirt_dir (subj_name +:+ par_atlas_suffix)
     +:+ " -omat " +:+ posixpath.join aff_flirt_dir (subj_name +:+ par_aff_suffix)
     +:+ " -dof " +:+ pystr.fmt_d par_atlas_dof
     +:+ " -bins 256 -cost corratio -searchrx -90 90 -searchry -90 90 -searchrz -90 90 -dof 12  -interp trilinear")%string in
  environ !! "FSLDIR" = Some fsl_dir ->
  atlas_candidates par_atlas_file os_walk w fsl_dir = f :: rest ->
  atlas ref_flirt_dir out_flirt_dir aff_flirt_dir subj_name w
  = Returned tt (with_line (with_line (shell cmd w) (fst (shell_output cmd w)))
                           (snd (shell_output cmd w))).
Proof.
  intros cmd He Hc. unfold atlas_registration, try_except_only, py_index0, with_line.
  unfold pipe_flags, atlas_command. unfold_py. rewrite He, Hc. subst cmd.
  by destruct (shell_output _ w).
Qed.

End Atlas.

Lemma reconstruction_without_gradient_file_raises_witness :
  (isdir_in (files demo_more.w_mri) "mri" = true
   /\ List.filter (fun each => pystr.endswith each ".bval")
                  (listdir_names (files demo_more.w_mri) "mri") = [])
  /\ compute_reconstruction "_iso.nii" "_evecs.nii" "_fa.nii" "_cfa.nii"
       demo_more.parse_txt demo_more.transpose demo_more.astype demo_more.astype
       (ndarray * ndarray) demo_more.gradient_table demo_more.tensor_model_fit
       demo_more.fractional_anisotropy demo_more.color_fa "mri" "s" demo_more.w_mri
     = Raised IndexError demo_more.w_mri.
Proof.
  split; [split; reflexivity|].
  apply reconstruction_without_gradient_file_raises; [reflexivity | left; reflexivity].
Defined.

(** The directory [dmri] lists [s.bval], and the stage looks for
    [dmris.bval]. *)
Lemma reconstruction_gradient_path_is_concatenated_witness :
  (isdir_in (files demo_more.w_iso) "dmri" = true
   /\ List.filter (fun each => pystr.endswith each ".bval")
                  (listdir_names (files demo_more.w_iso) "dmri") = ["s.bval"]
   /\ List.filter (fun each => pystr.endswith each ".bvec")
                  (listdir_names (files demo_more.w_iso) "dmri") = ["s.bvec"]
   /\ files demo_more.w_iso !! "dmri/s_iso.nii" = Some (File 2 (Nifti demo.vol))
   /\ files demo_more.w_iso !! "dmris.bval" = None)
  /\ compute_reconstruction "_iso.nii" "_evecs.nii" "_fa.nii" "_cfa.nii"
       demo_more.parse_txt demo_more.transpose demo_more.astype demo_more.astype
       (ndarray * ndarray) demo_more.gradient_table demo_more.tensor_model_fit
       demo_more.fractional_anisotropy demo_more.color_fa "dmri" "s" demo_more.w_iso
     = Raised IOError demo_more.w_iso.
Proof.
  split; [repeat split; reflexivity|].
  exact (reconstruction_gradient_path_is_concatenated "_iso.nii" "_evecs.nii" "_fa.nii" "_cfa.nii"
           demo_more.parse_txt demo_more.transpose demo_more.astype demo_more.astype
           (ndarray * ndarray) demo_more.gradient_table demo_more.tensor_model_fit
           demo_more.fractional_anisotropy demo_more.color_fa "dmri" "s" demo_more.w_iso
           "s.bval" "s.bvec" [] [] 2 demo.vol eq_refl eq_refl eq_refl eq_refl eq_refl).
Defined.

(** With the same directory given as [dmri/] the run succeeds; the FA
    map read back has its undefined second entry at zero. *)
Lemma reconstruction_outputs_share_affine_witness :
  (isdir_in (files demo_more.w_iso) "dmri/" = true
   /\ files demo_more.w_iso !! "dmri/s.bval" = Some (File 3 (Raw "0 1000"))
   /\ files demo_more.w_iso !! "dmri/s.bvec" = Some (File 4 (Raw "0 1 0 0 0 0"))
   /\ writable (files demo_more.w_iso) "dmri/s_fa.nii" = true)
  /\ exists w',
       compute_reconstruction "_iso.nii" "_evecs.nii" "_fa.nii" "_cfa.nii"
         demo_more.parse_txt demo_more.transpose demo_more.astype demo_more.astype
         (ndarray * ndarray) demo_more.gradient_table demo_more.tensor_model_fit
         demo_more.fractional_anisotropy demo_more.color_fa "dmri/" "s" demo_more.w_iso
       = Returned tt w'
       /\ nib_load "dmri/s_fa.nii" w'
          = Returned {| img_data := {| shape := [2]%nat; data := [1 # 2; 0]%Q |};
                        img_affine := [] |} w'.
Proof.
  split; [repeat split; reflexivity|].
  destruct (reconstruction_outputs_share_affine "_iso.nii" "_evecs.nii" "_fa.nii" "_cfa.nii"
              demo_more.parse_txt demo_more.transpose demo_more.astype demo_more.astype
              (ndarray * ndarray) demo_more.gradient_table demo_more.tensor_model_fit
              demo_more.fractional_anisotropy demo_more.color_fa "dmri/" "s" demo_more.w_iso
              "s.bval" "s.bvec" [] [] 2 3 4 demo.vol "0 1000" "0 1 0 0 0 0"
              {| shape := [2]%nat; data := [0%Q; 1000%Q] |}
              {| shape := [2]%nat; data := [0%Q; 1000%Q] |}
              ({| shape := [2]%nat; data := [0%Q; 1000%Q] |},
               {| shape := [2]%nat; data := [0%Q; 1000%Q] |})
              demo_more.fit)
    as (w' & Hrun & _ & Hfa & _); try reflexivity.
  - apply NoDup_cons; split.
    { intros H; apply list_elem_of_In in H; vm_compute in H; intuition discriminate. }
    apply NoDup_cons; split; [|apply NoDup_singleton].
    intros H; apply list_elem_of_In in H; vm_compute in H; intuition discriminate.
  - exists w'. split; [exact Hrun | exact Hfa].
Defined.

Lemma atlas_without_fsldir_raises_key_error_witness :
  (∅ : gmap string string) !! "FSLDIR" = None
  /\ atlas_registration "_iso.nii" "_aff.mat" "MNI152_T1_2mm.nii.gz" "_atlas.nii" 12
       demo.shell demo_more.shell_output ∅ demo_more.os_walk "ref" "out" "aff" "s"
       demo_more.w_ecc
     = Raised KeyError demo_more.w_ecc.
Proof.
  split; [reflexivity|].
  exact (atlas_without_fsldir_raises_key_error "_iso.nii" "_aff.mat" "MNI152_T1_2mm.nii.gz"
           "_atlas.nii" 12 demo.shell demo_more.shell_output ∅ demo_more.os_walk
           "ref" "out" "aff" "s" demo_more.w_ecc eq_refl).
Defined.

Lemma atlas_not_found_exits_witness :
  (demo_more.environ !! "FSLDIR" = Some "/opt/fsl"
   /\ atlas_candidates "missing.nii.gz" demo_more.os_walk demo_more.w_ecc "/opt/fsl" = [])
  /\ atlas_registration "_iso.nii" "_aff.mat" "missing.nii.gz" "_atlas.nii" 12
       demo.shell demo_more.shell_output demo_more.environ demo_more.os_walk
       "ref" "out" "aff" "s" demo_more.w_ecc
     = Exited (with_line demo_more.w_ecc "FAIL: atlas file not found - File: missing.nii.gz").
Proof.
  split; [split; reflexivity|].
  exact (atlas_not_found_exits "_iso.nii" "_aff.mat" "missing.nii.gz" "_atlas.nii" 12
           demo.shell demo_more.shell_output demo_more.environ demo_more.os_walk
           "ref" "out" "aff" "s" "/opt/fsl" demo_more.w_ecc eq_refl eq_refl).
Defined.

Lemma atlas_registers_first_candidate_witness :
  (demo_more.environ !! "FSLDIR" = Some "/opt/fsl"
   /\ atlas_candidates "T1_2mm.nii.gz" demo_more.os_walk demo_more.w_ecc "/opt/fsl"
      = ["/opt/fsl/data/MNI152_T1_2mm.nii.gz"])
  /\ atlas_registration "_iso.nii" "_aff.mat" "T1_2mm.nii.gz" "_atlas.nii" 12
       demo.shell demo_more.shell_output demo_more.environ demo_more.os_walk
       "ref" "out" "aff" "s" demo_more.w_ecc
     = Returned tt (with_line (with_line demo_more.w_ecc "['done']") "[]").
Proof.
  split; [split; reflexivity|].
  exact (atlas_registers_first_candidate "_iso.nii" "_aff.mat" "T1_2mm.nii.gz" "_atlas.nii" 12
           demo.shell demo_more.shell_output demo_more.environ demo_more.os_walk
           "ref" "out" "aff" "s" "/opt/fsl" demo_more.w_ecc
           "/opt/fsl/data/MNI152_T1_2mm.nii.gz" [] eq_refl eq_refl).
Defined.
(** ** [tractome_preprocessing]: a [.temp] that is not a directory *)

Section TractomeEdges.

Variable par_eudx_seeds : Z.
Variable par_trk_suffix : string.
Variable par_prototype_distance par_prototype_policy : string.
Variable par_prototype_num : nat.
Variable bundles_distances_mam : streamline -> streamline -> Q.
Variable next_prototype : string -> list streamline -> list streamline -> nat.

Local Abbreviation tractome :=
  (tractome_preprocessing par_eudx_seeds par_trk_suffix par_prototype_distance
     par_prototype_policy par_prototype_num bundles_distances_mam next_prototype).

(** The stage asks whether [.temp] exists, not whether it is a
    directory.  When a regular file has that name, no directory is
    made; the streamlines are read, and opening the output file under
    the regular file raises [IOError].  Nothing has been written. *)
Theorem tractome_temp_regular_file_raises
    (src_trk_dir subj_name : string) (w : world)
    (t t' : Z) (c : content) (hdr : trk_header) (streams : list trk_record) :
  pystr.mem "/" subj_name = false ->
  pystr.mem "/" par_trk_suffix = false ->
  files w !! posixpath.join src_trk_dir (tractome_trk_basename par_eudx_seeds par_trk_suffix subj_name)
    = Some (File t (Trk hdr streams)) ->
  files w !! tractome_out_spa_dir src_trk_dir = Some (File t' c) ->
  tractome src_trk_dir subj_name w = Raised IOError w.
Proof.
  intros Hsubj Hsuf Hin Htemp.
  destruct (join_temp src_trk_dir) as [Hne Hend].
  fold (tractome_out_spa_dir src_trk_dir) in Hne, Hend.
  pose proof (spa_basename_plain par_eudx_seeds par_trk_suffix subj_name Hsubj Hsuf) as Hplain.
  unfold tractome_preprocessing. unfold bind at 1.
  rewrite lookup_singleton_eq. unfold ret at 1.
  unfold bind at 1. unfold os_path_exists, exists_in. rewrite Htemp, orb_true_r.
  unfold bind at 1. unfold ret at 1.
  unfold bind at 1. unfold trackvis_read, bind at 1. rewrite (read_file_ok _ _ _ _ Hin).
  unfold ret at 1. cbv beta iota.
  apply write_file_fail. unfold writable.
  assert (Hp : parent_ok (files w) (tractome_out_spa_file par_eudx_seeds par_trk_suffix
                                      src_trk_dir subj_name) = false).
  { unfold tractome_out_spa_file.
    rewrite join_relative by auto using startswith_no_slash.
    unfold parent_ok, posixpath.dirname. rewrite split_child by done.
    simpl fst. rewrite Htemp.
    destruct (String.eqb_spec (tractome_out_spa_dir src_trk_dir) ""); [done|].
    destruct (pystr.all_in "/" (tractome_out_spa_dir src_trk_dir)) eqn:E; [|done].
    by rewrite (all_slashes_end _ Hne E) in Hend. }
  rewrite Hp. by repeat case_match.
Qed.

End TractomeEdges.

Lemma tractome_temp_regular_file_raises_witness :
  (pystr.mem "/" "s" = false /\ pystr.mem "/" ".trk" = false
   /\ files demo_more.w_temp_file !! "trk/s_1M.trk"
      = Some (File 2 (Trk demo.hdr [(demo.sl_long, None, None); (demo.sl_short, None, None)]))
   /\ files demo_more.w_temp_file !! "trk/.temp" = Some (File 3 (Raw "")))
  /\ tractome_preprocessing 1000000 ".trk" "mam" "sff" 1%nat
       demo.distance demo.next_prototype "trk" "s" demo_more.w_temp_file
     = Raised IOError demo_more.w_temp_file.
Proof.
  split; [repeat split; reflexivity|].
  exact (tractome_temp_regular_file_raises 1000000 ".trk" "mam" "sff" 1%nat
           demo.distance demo.next_prototype "trk" "s" demo_more.w_temp_file
           2 3 (Raw "") demo.hdr [(demo.sl_long, None, None); (demo.sl_short, None, None)]
           eq_refl eq_refl eq_refl eq_refl).
Defined.
(** ** [dicom_to_nifti]: giving the outputs the subject's names *)





(** The file taken for the new one is one of the listed files, and
    looking for it changes nothing. *)
Lemma dicom_new_file_member (out_dir : string) (w : world) :
  let all_file :=
    filter (fun p => glob_match out_dir ".nii" p = true) (map fst (map_to_list (files w))) in
  all_file <> [] ->
  exists f, dicom_new_file out_dir w = Returned f w /\ In f all_file.
Proof.
  intros all_file Hne. unfold dicom_new_file, bind, glob_ext, py_min_key, bind.
  fold all_file. rewrite map_py_getctime.
  2: { intros p Hp. apply list_elem_of_In, list_elem_of_filter in Hp as [_ Hp].
       apply list_elem_of_fmap in Hp as ([q n] & -> & Hq).
       apply elem_of_map_to_list in Hq. eauto. }
  destruct all_file as [|x l]; [done|]. simpl.
  destruct (min_from_least
              (map (fun p => (p, from_option node_ctime 0 (files w !! p))) l)
              x (from_option node_ctime 0 (files w !! x))) as (kr & Hin & _).
  set (key := fun p : string => (p, from_option node_ctime 0 (files w !! p))) in *.
  change ((x, from_option node_ctime 0 (files w !! x)) :: map key l)
    with (map key (x :: l)) in *.
  apply in_map_iff in Hin as (f & [= Hf <-] & Hfin).
  eexists. split; [reflexivity|]. by rewrite <- Hf in *.
Qed.


(** With a tag other than [mri] and [dmri] the stage renames nothing:
    once the converter has run, its files keep the names it gave them
    and the call returns with the world as the converter left it.
    The directory name holds no pattern character of [glob]. *)
Theorem dicom_collect_other_tag_renames_nothing
    (out_dir subj_name tag : string) (w : world) :
  glob_has_magic out_dir = false ->
  tag <> "mri"%string -> tag <> "dmri"%string ->
  filter (fun p => glob_match out_dir ".nii" p = true) (map fst (map_to_list (files w))) <> [] ->
  dicom_collect (Some out_dir) subj_name tag w = Returned tt w.
Proof.
  intros _ Hmri Hdmri Hne. unfold dicom_collect. rewrite os_path_join_some.
  change (default "" (Some out_dir)) with out_dir.
  unfold bind at 1. unfold ret at 1.
  destruct (dicom_new_file_member out_dir w Hne) as (f & Hrun & _).
  rewrite (bind_returned _ _ _ _ _ Hrun).
  apply String.eqb_neq in Hmri, Hdmri. by rewrite Hmri, Hdmri.
Qed.




Lemma dicom_collect_other_tag_renames_nothing_witness :
  (glob_has_magic "out" = false
   /\ "fmri"%string <> "mri"%string /\ "fmri"%string <> "dmri"%string
   /\ filter (fun p => glob_match "out" ".nii" p = true)
             (map fst (map_to_list (files demo_more.w_conv_mri))) <> [])
  /\ dicom_collect (Some "out") "s" "fmri" demo_more.w_conv_mri
     = Returned tt demo_more.w_conv_mri.
Proof.
  assert (Hne : filter (fun p => glob_match "out" ".nii" p = true)
                       (map fst (map_to_list (files demo_more.w_conv_mri))) <> [])
    by (vm_compute; discriminate).
  split; [split; [reflexivity | split; [discriminate | split; [discriminate | exact Hne]]]|].
  exact (dicom_collect_other_tag_renames_nothing "out" "s" "fmri" demo_more.w_conv_mri
           eq_refl ltac:(discriminate) ltac:(discriminate) Hne).
Defined.


